(** * Bilingual concert landing page: seat inventory, booking and tickets

    A shallow embedding of the booking code of the landing page:
    the form validation of the booking wizard, the seat picker, the
    Supabase-backed booking service and the canvas ticket generator.

    JavaScript strings are sequences of UTF-16 code units; they are
    modelled as lists of [N].  JavaScript numbers that the code only
    ever uses as integers (seat numbers, quantities, lengths) are [Z]. *)

From Stdlib Require Import ZArith NArith List Ascii String Bool Lia.
From Stdlib Require Import Sorting.Sorted Sorting.Permutation.
From stdpp Require Import base decidable option list gmap pretty sorting.

Open Scope Z_scope.

(** ** JavaScript strings *)

Module JS.

(** A string value: its UTF-16 code units. *)
Abbreviation jstring := (list N).

(** A literal of the source, given by its ASCII text. *)
Definition lit (s : string) : jstring :=
  List.map N_of_ascii (list_ascii_of_string s).

(** [`${n}`] for a number holding an integer: decimal digits, with a
    leading minus sign for negative values. *)
Definition Number_toString (n : Z) : jstring := lit (pretty n).

(** The code units matched by [\s] (and removed by [String.prototype.trim]):
    ECMAScript WhiteSpace and LineTerminator. *)
Definition is_whitespace (c : N) : bool :=
  ((9 <=? c) && (c <=? 13) || (c =? 32) || (c =? 160) || (c =? 5760)
   || (8192 <=? c) && (c <=? 8202) || (c =? 8232) || (c =? 8233)
   || (c =? 8239) || (c =? 8287) || (c =? 12288) || (c =? 65279))%N.

(** [s.replace(/\s/g, '')] *)
Definition remove_whitespace (s : jstring) : jstring :=
  List.filter (fun c => negb (is_whitespace c)) s.

Fixpoint trimStart (s : jstring) : jstring :=
  match s with
  | c :: s' => if is_whitespace c then trimStart s' else s
  | [] => []
  end.

(** [s.trim()] *)
Definition trim (s : jstring) : jstring :=
  rev (trimStart (rev (trimStart s))).

(** [s.length] *)
Definition strlen (s : jstring) : Z := Z.of_nat (List.length s).

(** Lexicographic comparison of two strings, code unit by code unit. *)
Definition compare (a b : jstring) : comparison := list_compare N.compare a b.

(** [a || b] on strings: the empty string is falsy. *)
Definition truthy (s : jstring) : bool :=
  match s with [] => false | _ => true end.

End JS.

Import JS.

(** ** Regular expressions

    The fragment of JavaScript regular expressions the validation uses:
    character classes, concatenation, bounded repetition and [+].  A
    pattern written [/^...$/] (no flags) is tested against the whole
    subject; [test] is decided with Brzozowski derivatives. *)

Module Regex.

Inductive regex : Type :=
| Void : regex                          (* matches nothing *)
| Eps : regex                           (* the empty string *)
| Class : (N -> bool) -> regex          (* one code unit of a class *)
| Cat : regex -> regex -> regex
| Alt : regex -> regex -> regex
| Star : regex -> regex.

(** [r+] *)
Definition Plus (r : regex) : regex := Cat r (Star r).

(** [r{n}] *)
Fixpoint Repeat (n : nat) (r : regex) : regex :=
  match n with
  | O => Eps
  | S n' => Cat r (Repeat n' r)
  end.

(** A literal code unit. *)
Definition Chr (c : N) : regex := Class (N.eqb c).

Fixpoint nullable (r : regex) : bool :=
  match r with
  | Void => false
  | Eps => true
  | Class _ => false
  | Cat r1 r2 => nullable r1 && nullable r2
  | Alt r1 r2 => nullable r1 || nullable r2
  | Star _ => true
  end.

Fixpoint deriv (c : N) (r : regex) : regex :=
  match r with
  | Void => Void
  | Eps => Void
  | Class p => if p c then Eps else Void
  | Cat r1 r2 =>
      if nullable r1
      then Alt (Cat (deriv c r1) r2) (deriv c r2)
      else Cat (deriv c r1) r2
  | Alt r1 r2 => Alt (deriv c r1) (deriv c r2)
  | Star r1 => Cat (deriv c r1) (Star r1)
  end.

(** [/^r$/.test(s)] *)
Fixpoint test (r : regex) (s : jstring) : bool :=
  match s with
  | [] => nullable r
  | c :: s' => test (deriv c r) s'
  end.

(** The language of a pattern. *)
Inductive Matches : regex -> jstring -> Prop :=
| MEps : Matches Eps []
| MClass p c : p c = true -> Matches (Class p) [c]
| MCat r1 r2 s1 s2 :
    Matches r1 s1 -> Matches r2 s2 -> Matches (Cat r1 r2) (s1 ++ s2)
| MAltL r1 r2 s : Matches r1 s -> Matches (Alt r1 r2) s
| MAltR r1 r2 s : Matches r2 s -> Matches (Alt r1 r2) s
| MStarNil r : Matches (Star r) []
| MStarApp r s1 s2 :
    Matches r s1 -> Matches (Star r) s2 -> Matches (Star r) (s1 ++ s2).

End Regex.

(** ** Form validation of the booking wizard
    (booking-flow-v2.tsx and booking-flow.tsx) *)

Module Patterns.
Import Regex.

Definition is_digit (c : N) : bool := ((48 <=? c) && (c <=? 57))%N.

(** [[^\s@]] *)
Definition not_space_or_at (c : N) : bool :=
  negb (is_whitespace c || (c =? 64)%N).

(** [/^(01)[0-9]{9}$/] *)
Definition phone : regex :=
  Cat (Cat (Chr 48) (Chr 49)) (Repeat 9 (Class is_digit)).

(** [/^[^\s@]+@[^\s@]+\.[^\s@]+$/] *)
Definition email : regex :=
  Cat (Plus (Class not_space_or_at))
    (Cat (Chr 64)
       (Cat (Plus (Class not_space_or_at))
          (Cat (Chr 46) (Plus (Class not_space_or_at))))).

End Patterns.

(** The [errors] object of [validate]: a map from field name to message key. *)
Abbreviation Errors := (gmap jstring jstring).

(** ** The seat layout table (seat-layout.ts) *)

Inductive TheaterType : Type := vip | classic.

#[global] Instance TheaterType_eq_dec : EqDecision TheaterType.
Proof. solve_decision. Defined.

Definition theater_eqb (a b : TheaterType) : bool :=
  match a, b with
  | vip, vip | classic, classic => true
  | _, _ => false
  end.

(** The string a tier is written as: ['vip'] or ['classic']. *)
Definition theater_name (t : TheaterType) : jstring :=
  match t with
  | vip => lit "vip"
  | classic => lit "classic"
  end.

(** The objects [{ row, seat_number }] that the picker, the wizard and the
    booking service pass around. *)
Module SeatRef.
Record t := { row : jstring; seat_number : Z }.

Definition eqb (a b : t) : bool :=
  bool_decide (row a = row b) && (seat_number a =? seat_number b).

#[global] Instance eq_dec : EqDecision t.
Proof. solve_decision. Defined.
End SeatRef.

Module SeatLayout.

(** Modelled from the spec: seat-layout.ts, which exports [seatLayout], is
    not among the sources.  The table is the sample layout of the
    specification and of the seed script: a small tier of rows of 7, 8 and
    8 seats (23 in all) and a large tier of twelve rows (254 in all).  An
    object keeps its keys in insertion order, hence the list. *)
Definition seatLayout (type : TheaterType) : list (jstring * Z) :=
  match type with
  | vip => [(lit "A", 7); (lit "B", 8); (lit "C", 8)]
  | classic =>
      [(lit "A", 15); (lit "B", 17); (lit "C", 22); (lit "D", 23);
       (lit "E", 23); (lit "F", 22); (lit "G", 24); (lit "H", 30);
       (lit "I", 28); (lit "J", 30); (lit "K", 10); (lit "L", 10)]
  end.

(** [Object.values(layout).reduce((a, b) => a + b, 0)] *)
Definition totalSeats (layout : list (jstring * Z)) : Z :=
  fold_left (fun a b => a + b) (List.map snd layout) 0.

End SeatLayout.

(** ** Objects used as maps *)

Module JSObject.

(** A number, as far as a map of seat counts holds one. *)
Inductive Num : Type :=
| Int (z : Z)
| NaN.

#[global] Instance Num_eq_dec : EqDecision Num.
Proof. solve_decision. Defined.

(** What [object[key]] reads from such a map. *)
Inductive Value : Type :=
| Number (n : Num)
| Inherited            (* a member of Object.prototype: a function, or the
                          prototype itself for [__proto__] *)
| Undefined.

(** An object made as [{}] and filled with numbers: its own properties.
    It inherits the members of Object.prototype. *)
Abbreviation t := (gmap jstring Num).

(** The names of the members of Object.prototype. *)
Definition prototype_names : list jstring :=
  [ lit "constructor"; lit "hasOwnProperty"; lit "isPrototypeOf";
    lit "propertyIsEnumerable"; lit "toLocaleString"; lit "toString";
    lit "valueOf"; lit "__defineGetter__"; lit "__defineSetter__";
    lit "__lookupGetter__"; lit "__lookupSetter__"; lit "__proto__" ].

(** [object[key]]: the own property, or else what Object.prototype has
    under the name. *)
Definition get (object : t) (key : jstring) : Value :=
  match object !! key with
  | Some n => Number n
  | None =>
      if bool_decide (key ∈ prototype_names) then Inherited else Undefined
  end.

(** [object[key] = n]: a new or changed own property, except under
    [__proto__], whose setter ignores a value that is no object. *)
Definition set (object : t) (key : jstring) (n : Num) : t :=
  if bool_decide (key = lit "__proto__") then object
  else <[key := n]> object.

(** [value || 0]: [0], [NaN] and [undefined] are falsy. *)
Definition or_zero (v : Value) : Value :=
  match v with
  | Number (Int z) => Number (Int z)
  | Number NaN => Number (Int 0)
  | Inherited => Inherited
  | Undefined => Number (Int 0)
  end.

(** [Math.max(value, n)]: a function or an object is [NaN] as a number. *)
Definition Math_max (v : Value) (n : Z) : Num :=
  match v with
  | Number (Int z) => Int (Z.max z n)
  | _ => NaN
  end.

End JSObject.

(** ** The booking service (booking-service.ts) *)

Module BookingService.

(** The error object of a failed request. *)
Record PostgrestError := { message : jstring; code : jstring }.

Module Seat.
Record t := {
  id : jstring;
  theater_type : TheaterType;
  row : jstring;
  seat_number : Z;
  is_available : bool;
  created_at : jstring;
}.
End Seat.

Inductive Status : Type := pending | completed | cancelled.

(** [Omit<BookingData, 'status'>]; an absent optional field is [None]. *)
Module BookingData.
Record t := {
  name : jstring;
  phone : jstring;
  email : option jstring;
  theater_type : TheaterType;
  seats : list SeatRef.t;
  payment_method : jstring;
  receipt_url : option jstring;
}.
End BookingData.

(** A row of table [bookings]; [null] is [None]. *)
Module Booking.
Record t := {
  id : jstring;
  name : jstring;
  phone : jstring;
  email : option jstring;
  theater_type : TheaterType;
  payment_method : jstring;
  receipt_url : option jstring;
  status : Status;
  total_seats : Z;
}.
End Booking.

(** A row of table [booking_seats]. *)
Module BookingSeat.
Record t := {
  booking_id : jstring;
  row : jstring;
  seat_number : Z;
  theater_type : TheaterType;
}.
End BookingSeat.

(** The three tables of the remote store. *)
Record Store := {
  theater_seats : list Seat.t;
  bookings : list Booking.t;
  booking_seats : list BookingSeat.t;
}.

(** What the service runs against: the store, the fate of the requests
    still to come (in order; [Some e] is a request that fails with [e]
    and changes nothing, and requests beyond the list succeed), and the
    browser console. *)
Record World := {
  store : Store;
  network : list (option PostgrestError);
  console : list (jstring * PostgrestError);
}.

(** The settled result of an [async] function. *)
Inductive Outcome (A : Type) : Type :=
| Returned (a : A)
| Threw (e : PostgrestError).
Arguments Returned {A} a.
Arguments Threw {A} e.

Definition Async (A : Type) : Type := World -> World * Outcome A.

Definition ret {A} (a : A) : Async A := fun w => (w, Returned a).

Definition throw {A} (e : PostgrestError) : Async A := fun w => (w, Threw e).

Definition bind {A B} (m : Async A) (k : A -> Async B) : Async B :=
  fun w =>
    match m w with
    | (w', Returned a) => k a w'
    | (w', Threw e) => (w', Threw e)
    end.

(** [try { body } catch (error) { handler }] *)
Definition try_catch {A} (body : Async A) (handler : PostgrestError -> Async A)
  : Async A :=
  fun w =>
    match body w with
    | (w', Returned a) => (w', Returned a)
    | (w', Threw e) => handler e w'
    end.

Definition console_error (label : jstring) (error : PostgrestError)
  : Async unit :=
  fun w =>
    ({| store := store w; network := network w;
        console := console w ++ [(label, error)] |}, Returned tt).

Declare Scope async_scope.
Delimit Scope async_scope with async.
Notation "'let*' x ':=' c1 'in' c2" := (bind c1 (fun x => c2))
  (at level 10, x pattern, c1 at level 100, c2 at level 200) : async_scope.
Local Open Scope async_scope.

(** The object [{ data, error }] a request resolves to. *)
Inductive Response (A : Type) : Type :=
| Data (data : A)
| Error (error : PostgrestError).
Arguments Data {A} data.
Arguments Error {A} error.

(** [await supabase.from(...)...]: one request to the store. *)
Definition request {A} (op : Store -> Store * A) : Async (Response A) :=
  fun w =>
    match network w with
    | Some e :: rest =>
        ({| store := store w; network := rest; console := console w |},
         Returned (Error e))
    | None :: rest =>
        let '(st, a) := op (store w) in
        ({| store := st; network := rest; console := console w |},
         Returned (Data a))
    | [] =>
        let '(st, a) := op (store w) in
        ({| store := st; network := []; console := console w |},
         Returned (Data a))
    end.

(** The coming request does not fail. *)
Definition request_succeeds (w : World) : bool :=
  match network w with
  | Some _ :: _ => false
  | _ => true
  end.

(** *** Queries *)

(** [.order('row', { ascending: true }).order('seat_number', { ascending:
    true })]: by row, then by seat number. *)
Definition seat_order (a b : Seat.t) : Prop :=
  JS.compare (Seat.row a) (Seat.row b) = Lt
  \/ (JS.compare (Seat.row a) (Seat.row b) = Eq
      /\ Seat.seat_number a <= Seat.seat_number b).

#[global] Instance seat_order_dec : RelDecision seat_order.
Proof. intros a b. unfold seat_order. apply _. Defined.

(** [.from('theater_seats').select(..).eq('theater_type', theaterType)],
    with [.eq('is_available', flag)] when [flag] is given, in the order
    above. *)
Definition select_theater_seats (theaterType : TheaterType)
    (flag : option bool) (st : Store) : Store * list Seat.t :=
  (st,
   merge_sort seat_order
     (List.filter
        (fun s =>
           theater_eqb (Seat.theater_type s) theaterType
           && match flag with
              | Some b => Bool.eqb (Seat.is_available s) b
              | None => true
              end)
        (theater_seats st))).

(** The columns of [.select('row, seat_number')]. *)
Definition row_seat_number (s : Seat.t) : SeatRef.t :=
  {| SeatRef.row := Seat.row s; SeatRef.seat_number := Seat.seat_number s |}.

(** [.from('booking_seats').insert(rows)] *)
Definition insert_booking_seats (rows : list BookingSeat.t) (st : Store)
  : Store * unit :=
  ({| theater_seats := theater_seats st; bookings := bookings st;
      booking_seats := booking_seats st ++ rows |}, tt).

Definition mark_unavailable (s : Seat.t) : Seat.t :=
  {| Seat.id := Seat.id s; Seat.theater_type := Seat.theater_type s;
     Seat.row := Seat.row s; Seat.seat_number := Seat.seat_number s;
     Seat.is_available := false; Seat.created_at := Seat.created_at s |}.

(** [.from('theater_seats').update({ is_available: false }).in('id', ids)] *)
Definition update_unavailable_in (ids : list jstring) (st : Store)
  : Store * unit :=
  ({| theater_seats :=
        List.map
          (fun s =>
             if bool_decide (Seat.id s ∈ ids) then mark_unavailable s else s)
          (theater_seats st);
      bookings := bookings st;
      booking_seats := booking_seats st |}, tt).

(** [value || null] for an optional string. *)
Definition or_null (v : option jstring) : option jstring :=
  match v with
  | Some s => if truthy s then Some s else None
  | None => None
  end.

(** *** The exported functions *)

Definition getAvailableSeats (theaterType : TheaterType)
  : Async (list Seat.t) :=
  try_catch
    (let* r := request (select_theater_seats theaterType (Some true)) in
     match r with
     | Error error => throw error
     | Data data => ret data
     end)
    (fun error =>
       let* _ := console_error (lit "[v0] Error fetching available seats:")
                   error in
       ret []).

(** [layout[seat.row] = Math.max(layout[seat.row] || 0, seat.seat_number)] *)
Definition count_seat (layout : JSObject.t) (seat : SeatRef.t) : JSObject.t :=
  JSObject.set layout (SeatRef.row seat)
    (JSObject.Math_max
       (JSObject.or_zero (JSObject.get layout (SeatRef.row seat)))
       (SeatRef.seat_number seat)).

(** The result is the own properties of the object returned. *)
Definition getSeatLayout (theaterType : TheaterType)
  : Async JSObject.t :=
  try_catch
    (let* r := request (select_theater_seats theaterType None) in
     match r with
     | Error error => throw error
     | Data data =>
         ret (fold_left count_seat (List.map row_seat_number data) ∅)
     end)
    (fun error =>
       let* _ := console_error (lit "[v0] Error fetching seat layout:")
                   error in
       ret ∅).

(** What the loop of [getSeatLayout] makes of one row: the entry of the
    row after the seat numbers [ns] of its seats, in the order read, from
    the entry [entry]; [inherited] tells whether Object.prototype has a
    member under the name of the row. *)
Definition row_entry (inherited : bool) (entry : option JSObject.Num)
    (ns : list Z) : option JSObject.Num :=
  fold_left
    (fun (entry : option JSObject.Num) (n : Z) =>
       Some (JSObject.Math_max
               (JSObject.or_zero
                  match entry with
                  | Some x => JSObject.Number x
                  | None => if inherited then JSObject.Inherited
                            else JSObject.Undefined
                  end) n))
    ns entry.

Definition getBookedSeats (theaterType : TheaterType)
  : Async (list SeatRef.t) :=
  try_catch
    (let* r := request (select_theater_seats theaterType (Some false)) in
     match r with
     | Error error => throw error
     | Data data => ret (List.map row_seat_number data)
     end)
    (fun error =>
       let* _ := console_error (lit "[v0] Error fetching booked seats:")
                   error in
       ret []).

(** [`${bookingData.theater_type}-${seat.row}-${seat.seat_number}`] *)
Definition seatId (theaterType : TheaterType) (seat : SeatRef.t) : jstring :=
  theater_name theaterType ++ lit "-" ++ SeatRef.row seat ++ lit "-"
    ++ Number_toString (SeatRef.seat_number seat).

Section CreateBooking.

(** The primary key the store gives the row it inserts into
    [bookings]; the client does not send one. *)
Variable generate_id : Store -> jstring.

(** [.from('bookings').insert({...}).select().single()] *)
Definition insert_booking (bookingData : BookingData.t) (st : Store)
  : Store * Booking.t :=
  let booking :=
    {| Booking.id := generate_id st;
       Booking.name := BookingData.name bookingData;
       Booking.phone := BookingData.phone bookingData;
       Booking.email := or_null (BookingData.email bookingData);
       Booking.theater_type := BookingData.theater_type bookingData;
       Booking.payment_method := BookingData.payment_method bookingData;
       Booking.receipt_url := or_null (BookingData.receipt_url bookingData);
       Booking.status := completed;
       Booking.total_seats :=
         Z.of_nat (List.length (BookingData.seats bookingData)) |} in
  ({| theater_seats := theater_seats st;
      bookings := bookings st ++ [booking];
      booking_seats := booking_seats st |}, booking).

(** [const bookingSeatsData = bookingData.seats.map(seat => ({...}))] *)
Definition bookingSeatsData (booking : Booking.t) (bookingData : BookingData.t)
  : list BookingSeat.t :=
  List.map
    (fun seat =>
       {| BookingSeat.booking_id := Booking.id booking;
          BookingSeat.row := SeatRef.row seat;
          BookingSeat.seat_number := SeatRef.seat_number seat;
          BookingSeat.theater_type := BookingData.theater_type bookingData |})
    (BookingData.seats bookingData).

(** [const seatIds = bookingData.seats.map(seat => `...`)] *)
Definition seatIds (bookingData : BookingData.t) : list jstring :=
  List.map (seatId (BookingData.theater_type bookingData))
    (BookingData.seats bookingData).

Definition createBooking (bookingData : BookingData.t) : Async Booking.t :=
  try_catch
    (let* r1 := request (insert_booking bookingData) in
     match r1 with
     | Error bookingError => throw bookingError
     | Data booking =>
         let* r2 :=
           request (insert_booking_seats (bookingSeatsData booking bookingData)) in
         match r2 with
         | Error seatsError => throw seatsError
         | Data _ =>
             let* r3 := request (update_unavailable_in (seatIds bookingData)) in
             match r3 with
             | Error updateError => throw updateError
             | Data _ => ret booking
             end
         end
     end)
    (fun error =>
       let* _ := console_error (lit "[v0] Error creating booking:") error in
       throw error).

End CreateBooking.

(** *** Reading a booking back *)

(** The object [{ ...booking, seats }] that [getBooking] returns. *)
Module BookingDetails.
Record t := { booking : Booking.t; seats : list BookingSeat.t }.
End BookingDetails.

(** The order of the seat claims of a booking: by row, then by seat
    number. *)
Definition claim_order (a b : BookingSeat.t) : Prop :=
  JS.compare (BookingSeat.row a) (BookingSeat.row b) = Lt
  \/ (JS.compare (BookingSeat.row a) (BookingSeat.row b) = Eq
      /\ BookingSeat.seat_number a <= BookingSeat.seat_number b).

#[global] Instance claim_order_dec : RelDecision claim_order.
Proof. intros a b. unfold claim_order. apply _. Defined.

(** [.from('bookings').select(all columns).eq('id', bookingId)] *)
Definition select_bookings (bookingId : jstring) (st : Store)
  : Store * list Booking.t :=
  (st, List.filter (fun b => bool_decide (Booking.id b = bookingId))
         (bookings st)).

(** [.from('booking_seats').select(all columns).eq('booking_id', bookingId)]
    in the order above. *)
Definition select_booking_seats (bookingId : jstring) (st : Store)
  : Store * list BookingSeat.t :=
  (st,
   merge_sort claim_order
     (List.filter (fun c => bool_decide (BookingSeat.booking_id c = bookingId))
        (booking_seats st))).

Section GetBooking.

(** The error the store answers when [.single()] finds no row, or more
    than one. *)
Variable not_single : PostgrestError.

(** [.single()]: exactly one row, or an error. *)
Definition single {A} (r : Response (list A)) : Response A :=
  match r with
  | Error e => Error e
  | Data [a] => Data a
  | Data _ => Error not_single
  end.

Definition getBooking (bookingId : jstring) : Async (option BookingDetails.t) :=
  try_catch
    (let* r1 := request (select_bookings bookingId) in
     match single r1 with
     | Error bookingError => throw bookingError
     | Data booking =>
         let* r2 := request (select_booking_seats bookingId) in
         match r2 with
         | Error seatsError => throw seatsError
         | Data seats =>
             ret (Some {| BookingDetails.booking := booking;
                          BookingDetails.seats := seats |})
         end
     end)
    (fun error =>
       let* _ := console_error (lit "[v0] Error fetching booking:") error in
       ret None).

End GetBooking.

End BookingService.

(** ** The ticket generator (ticket-generator.ts) *)

Module TicketGenerator.

Record TicketInfo := {
  bookingId : jstring;
  guestName : jstring;
  ticketType : TheaterType;
  row : jstring;
  seatNumber : Z;
  eventName : jstring;
  eventDate : jstring;
  ticketPrice : jstring;
}.

(** The image a download carries: the PNG of the canvas painted for a
    ticket (the painting is a fixed function of the ticket), or the empty
    [new Blob()]. *)
Inductive Blob : Type :=
| Png (painted : TicketInfo)
| EmptyBlob.

(** What the browser makes of a canvas element: whether [getContext('2d')]
    yields a context rather than [null], and whether [toBlob] hands its
    callback a blob rather than [null]. *)
Record Canvas := { context2d : bool; encodes : bool }.

Inductive Event : Type :=
| Download (filename : jstring) (content : Blob)   (* a click on the link *)
| Delay (ms : Z).                                  (* a setTimeout wait *)

(** The page: the canvases the coming [document.createElement('canvas')]
    calls yield (beyond the list, a canvas that works), and what has
    happened so far. *)
Record Browser := { canvases : list Canvas; events : list Event }.

(** The state a promise ends in; [Pending] is a promise that is never
    settled. *)
Inductive Promise (A : Type) : Type :=
| Pending
| Fulfilled (value : A)
| Rejected (reason : jstring).
Arguments Pending {A}.
Arguments Fulfilled {A} value.
Arguments Rejected {A} reason.

Definition Task (A : Type) : Type := Browser -> Browser * Promise A.

Definition ret {A} (a : A) : Task A := fun b => (b, Fulfilled a).

(** [const x = await p; rest]: what follows an [await] runs only once the
    promise is fulfilled. *)
Definition await {A B} (p : Task A) (rest : A -> Task B) : Task B :=
  fun b =>
    match p b with
    | (b', Fulfilled a) => rest a b'
    | (b', Pending) => (b', Pending)
    | (b', Rejected r) => (b', Rejected r)
    end.

(** [new Promise((resolve) => ...)]: the executor runs at once; the promise
    is fulfilled with the value [resolve] is called with, and stays pending
    when the executor returns without arranging any call of [resolve]. *)
Definition new_Promise {A} (executor : Browser -> Browser * option A) : Task A :=
  fun b =>
    match executor b with
    | (b', Some a) => (b', Fulfilled a)
    | (b', None) => (b', Pending)
    end.

(** [document.createElement('canvas')] *)
Definition createCanvas (b : Browser) : Browser * Canvas :=
  match canvases b with
  | c :: rest => ({| canvases := rest; events := events b |}, c)
  | [] => (b, {| context2d := true; encodes := true |})
  end.

Definition generateIndividualTicket (ticketInfo : TicketInfo) : Task Blob :=
  new_Promise
    (fun b =>
       let '(b', canvas) := createCanvas b in
       if negb (context2d canvas) then (b', None)
       else
         (* the painting, then canvas.toBlob(blob => resolve(blob || new Blob())) *)
         (b', Some (if encodes canvas then Png ticketInfo else EmptyBlob))).

(** [`Ticket-${ticket.bookingId}-${ticket.row}${ticket.seatNumber}.png`] *)
Definition fileName (ticket : TicketInfo) : jstring :=
  lit "Ticket-" ++ bookingId ticket ++ lit "-" ++ row ticket
    ++ Number_toString (seatNumber ticket) ++ lit ".png".

(** The link element with [href] the blob's URL and [download] the file
    name, appended, clicked and removed. *)
Definition click (filename : jstring) (blob : Blob) : Task unit :=
  fun b =>
    ({| canvases := canvases b;
        events := events b ++ [Download filename blob] |}, Fulfilled tt).

(** [new Promise(resolve => setTimeout(resolve, ms))] *)
Definition sleep (ms : Z) : Task unit :=
  fun b =>
    ({| canvases := canvases b; events := events b ++ [Delay ms] |},
     Fulfilled tt).

Fixpoint downloadMultipleTickets (tickets : list TicketInfo) : Task unit :=
  match tickets with
  | [] => ret tt
  | ticket :: rest =>
      await (generateIndividualTicket ticket) (fun blob =>
      await (click (fileName ticket) blob) (fun _ =>
      await (sleep 300) (fun _ =>
      downloadMultipleTickets rest)))
  end.

Definition downloadSingleTicket (ticket : TicketInfo) : Task unit :=
  await (generateIndividualTicket ticket) (fun blob =>
  click (fileName ticket) blob).

(** The downloads among the events, in order. *)
Definition downloads (evs : list Event) : list (jstring * Blob) :=
  flat_map
    (fun e =>
       match e with
       | Download name blob => [(name, blob)]
       | Delay _ => []
       end)
    evs.

(** *** The barcode of a ticket *)

(** [n.toString(2)] for a code unit: its binary digits, the most
    significant first. *)
Fixpoint binary_digits (p : positive) : jstring :=
  match p with
  | xH => lit "1"
  | xO q => binary_digits q ++ lit "0"
  | xI q => binary_digits q ++ lit "1"
  end.

Definition toString2 (n : N) : jstring :=
  match n with
  | N0 => lit "0"
  | Npos p => binary_digits p
  end.

(** [s.padStart(8, '0')] *)
Definition padStart8 (s : jstring) : jstring :=
  repeat 48%N (8 - List.length s) ++ s.

(** The bar drawn for a binary digit: a full block (U+2588) for [0], a
    light shade (U+2591) otherwise. *)
Definition bar (digit : N) : N :=
  if (digit =? 48)%N then 9608%N else 9617%N.

(** [`${bookingId}-${row}${seatNumber}`] *)
Definition barcodeData (bookingId row : jstring) (seatNumber : Z) : jstring :=
  bookingId ++ lit "-" ++ row ++ Number_toString seatNumber.

Definition generateTicketBarcode (bookingId row : jstring) (seatNumber : Z)
  : jstring :=
  flat_map
    (fun charCode => List.map bar (padStart8 (toString2 charCode)))
    (barcodeData bookingId row seatNumber).

(** The bars of one code unit. *)
Definition bars_of (c : N) : jstring := List.map bar (padStart8 (toString2 c)).

(** The barcode text painted on the ticket: [barcode.substring(0, 50)]. *)
Definition barcodeText (ticketInfo : TicketInfo) : jstring :=
  firstn 50
    (generateTicketBarcode (bookingId ticketInfo) (row ticketInfo)
       (seatNumber ticketInfo)).

(** Reading a barcode back, eight bars to a code unit. *)
Fixpoint bars_value (bars : jstring) (acc : N) : N :=
  match bars with
  | [] => acc
  | b :: rest => bars_value rest (2 * acc + (if (b =? 9608)%N then 0 else 1))%N
  end.

Fixpoint read_bars (groups : nat) (bars : jstring) : jstring :=
  match groups with
  | O => []
  | S n =>
      match bars with
      | [] => []
      | _ => bars_value (firstn 8 bars) 0%N :: read_bars n (skipn 8 bars)
      end
  end.

Definition read_barcode (bars : jstring) : jstring :=
  read_bars (List.length bars) bars.

End TicketGenerator.

(** ** The canvas ticket of the first wizard (pdf-generator.ts) *)

Module PdfGenerator.

Record TicketData := {
  name : jstring;
  seats : list (jstring * Z);            (* { row, number } *)
  ticketType : TheaterType;
  bookingId : jstring;
  eventName : jstring;
  price : jstring;
  ticketCount : Z;
}.

(** The barcode text painted on the ticket: for each code unit of the text
    its eight binary digits or more, [|] for a [0] and [::] for a [1],
    then a space; of the whole, the first 40 code units. *)
Definition generateBarcode (text : jstring) : jstring :=
  firstn 40
    (flat_map
       (fun charCode =>
          flat_map
            (fun digit => if (digit =? 48)%N then lit "|" else lit "::")
            (TicketGenerator.padStart8 (TicketGenerator.toString2 charCode))
            ++ lit " ")
       text).

Inductive Event : Type :=
| Download (filename : jstring) (painted : TicketData)
| Delay (ms : Z).

(** A call of [canvas.toBlob] whose callback has not run yet: whether it
    will be handed an image rather than [null], and the ticket painted. *)
Record Encoding := { image : bool; ticket : TicketData }.

(** The page: the canvases to come (beyond the list, a canvas that works),
    the encodings under way, and what has happened so far. *)
Record Browser := {
  canvases : list TicketGenerator.Canvas;
  encodings : list Encoding;
  events : list Event;
}.

Definition Task (A : Type) : Type :=
  Browser -> Browser * TicketGenerator.Promise A.

Definition await {A B} (p : Task A) (rest : A -> Task B) : Task B :=
  fun b =>
    match p b with
    | (b', TicketGenerator.Fulfilled a) => rest a b'
    | (b', TicketGenerator.Pending) => (b', TicketGenerator.Pending)
    | (b', TicketGenerator.Rejected r) => (b', TicketGenerator.Rejected r)
    end.

(** [`cinema-ticket-${data.bookingId}.png`] *)
Definition fileName (data : TicketData) : jstring :=
  lit "cinema-ticket-" ++ bookingId data ++ lit ".png".

(** The callback of [toBlob]: [if (!blob) return;], then the download. *)
Definition callback (e : Encoding) : list Event :=
  if negb (image e) then []
  else [Download (fileName (ticket e)) (ticket e)].

(** [new Promise(resolve => setTimeout(resolve, ms))]; the callbacks of the
    encodings under way run during the wait. *)
Definition sleep (ms : Z) : Task unit :=
  fun b =>
    ({| canvases := canvases b;
        encodings := [];
        events := events b ++ flat_map callback (encodings b) ++ [Delay ms] |},
     TicketGenerator.Fulfilled tt).

(** An [async] function without [await]: its promise is fulfilled when the
    body returns, be it at [if (!ctx) return;] or after [toBlob] has been
    called. *)
Definition generatePDF (data : TicketData) : Task unit :=
  fun b =>
    let canvas :=
      match canvases b with
      | c :: _ => c
      | [] => {| TicketGenerator.context2d := true;
                 TicketGenerator.encodes := true |}
      end in
    let b' := {| canvases := tl (canvases b);
                 encodings := encodings b;
                 events := events b |} in
    if negb (TicketGenerator.context2d canvas)
    then (b', TicketGenerator.Fulfilled tt)
    else
      ({| canvases := canvases b';
          encodings :=
            encodings b'
              ++ [{| image := TicketGenerator.encodes canvas;
                     ticket := data |}];
          events := events b' |}, TicketGenerator.Fulfilled tt).

Fixpoint generateMultiplePDFs (tickets : list TicketData) : Task unit :=
  match tickets with
  | [] => fun b => (b, TicketGenerator.Fulfilled tt)
  | ticket :: rest =>
      await (generatePDF ticket) (fun _ =>
      await (sleep 300) (fun _ =>
      generateMultiplePDFs rest))
  end.

(** The downloads among the events, in order. *)
Definition downloads (evs : list Event) : list (jstring * TicketData) :=
  flat_map
    (fun e =>
       match e with
       | Download name painted => [(name, painted)]
       | Delay _ => []
       end)
    evs.

(** The tickets whose canvas yields a 2D context and an image, the
    canvases being taken in order, one for each ticket. *)
Fixpoint printed (tickets : list TicketData)
    (canvases : list TicketGenerator.Canvas) : list TicketData :=
  match tickets with
  | [] => []
  | ticket :: rest =>
      let canvas :=
        match canvases with
        | c :: _ => c
        | [] => {| TicketGenerator.context2d := true;
                   TicketGenerator.encodes := true |}
        end in
      (if TicketGenerator.context2d canvas && TicketGenerator.encodes canvas
       then [ticket] else [])
        ++ printed rest (tl canvases)
  end.

End PdfGenerator.

(** ** The seat picker (seat-picker.tsx) *)

Module SeatPicker.

(** The properties [toggle] reads: [available] is the set of keys of the
    seats that are taken (the wizard passes its [bookedSeats]). *)
Record Props := { available : gset jstring; quantity : Z }.

(** [`${seat.row}-${seat.seat_number}`] *)
Definition seatKey (seat : SeatRef.t) : jstring :=
  SeatRef.row seat ++ lit "-" ++ Number_toString (SeatRef.seat_number seat).

(** [l.findIndex(p)]: the index of the first element that satisfies [p],
    or -1. *)
Fixpoint findIndex {A} (p : A -> bool) (l : list A) : Z :=
  match l with
  | [] => -1
  | x :: l' =>
      if p x then 0
      else let i := findIndex p l' in if i <? 0 then -1 else i + 1
  end.

(** One click on a seat: the new value of [selected], which is also what
    [onChange] reports.  A click on a taken seat returns before either. *)
Definition toggle (props : Props) (selected : list SeatRef.t)
    (seat : SeatRef.t) : list SeatRef.t :=
  let key := seatKey seat in
  if bool_decide (key ∈ available props) then selected
  else
    let idx := findIndex (fun s => SeatRef.eqb s seat) selected in
    let next := selected in
    if idx >=? 0 then delete (Z.to_nat idx) next          (* next.splice(idx, 1) *)
    else if Z.of_nat (List.length next) <? quantity props
         then next ++ [seat]                              (* next.push(seat) *)
         else next.

(** What holds of the selection at all times. *)
Definition picker_invariant (props : Props) (selected : list SeatRef.t) : Prop :=
  Forall (fun s => seatKey s ∉ available props) selected
  /\ NoDup selected
  /\ Z.of_nat (List.length selected) <= Z.max 0 (quantity props).

(** The selection after a sequence of clicks, from the initial []. *)
Definition clicks (props : Props) (seats : list SeatRef.t) : list SeatRef.t :=
  fold_left (toggle props) seats [].

End SeatPicker.

(** ** The booking wizard (booking-flow-v2.tsx) *)

Module BookingFlowV2.

Record FormData := {
  name : jstring;
  phone : jstring;
  email : jstring;
  quantity : Z;
}.

Definition validate (formData : FormData) : Errors :=
  let errors : Errors := ∅ in
  let errors :=
    if strlen (trim (name formData)) <? 2
    then <[lit "name" := lit "name"]> errors else errors in
  let errors :=
    if negb (Regex.test Patterns.phone (remove_whitespace (phone formData)))
    then <[lit "phone" := lit "phone"]> errors else errors in
  let errors :=
    if truthy (email formData)
       && negb (Regex.test Patterns.email (email formData))
    then <[lit "email" := lit "email"]> errors else errors in
  let errors :=
    if (quantity formData <? 1) || (quantity formData >? 10)
    then <[lit "quantity" := lit "quantity"]> errors else errors in
  errors.

(** The part of the component state the quantity logic touches. *)
Record State := {
  formData : FormData;
  selectedSeats : list SeatRef.t;
  bookedSeats : gset jstring;
  maxQuantity : Z;
  isLoading : bool;
}.

(** The state of a freshly opened wizard. *)
Definition initial : State :=
  {| formData := {| name := []; phone := []; email := []; quantity := 1 |};
     selectedSeats := [];
     bookedSeats := ∅;
     maxQuantity := 10;
     isLoading := false |}.

Definition loadBookedSeats (type : TheaterType)
    (w : BookingService.World) (s : State) : BookingService.World * State :=
  match BookingService.getBookedSeats type w with
  | (w', BookingService.Returned booked) =>
      let bookedSet : gset jstring :=
        list_to_set (List.map SeatPicker.seatKey booked) in
      let available := SeatLayout.seatLayout type in
      let totalSeats := SeatLayout.totalSeats available in
      let maxAvailable := totalSeats - Z.of_nat (size bookedSet) in
      (w',
       {| formData := formData s;
          selectedSeats := selectedSeats s;
          bookedSeats := bookedSet;
          maxQuantity := Z.min maxAvailable 10;
          isLoading := false |})
  | (w', BookingService.Threw _) =>
      (* the catch branch shows a toast; finally clears the spinner *)
      (w',
       {| formData := formData s;
          selectedSeats := selectedSeats s;
          bookedSeats := bookedSeats s;
          maxQuantity := maxQuantity s;
          isLoading := false |})
  end.





(** *** The component as a whole *)

Inductive PaymentMethod : Type := vodafone | instapay | card.

(** The string a payment method is written as. *)
Definition payment_name (m : PaymentMethod) : jstring :=
  match m with
  | vodafone => lit "vodafone"
  | instapay => lit "instapay"
  | card => lit "card"
  end.

(** The toasts of the wizard; their text depends on the language. *)
Inductive Toast : Type :=
| LoadingError
| PaymentError
| TicketsDownloaded.

(** The state of the component: besides the part above, the step (1 the
    type, 2 the quantity, 3 the seats, 4 the details, 5 the payment, 6 the
    confirmation), the chosen tier, the payment method, the errors shown,
    the booking id made when the wizard opened, and the [selected] of the
    seat picker while one is mounted. *)
Record Wizard := {
  step : Z;
  ticketType : option TheaterType;
  state : State;
  paymentMethod : PaymentMethod;
  errors : Errors;
  bookingId : jstring;
  picker : option (list SeatRef.t);
}.

Definition initial_wizard (bookingId : jstring) : Wizard :=
  {| step := 1;
     ticketType := None;
     state := initial;
     paymentMethod := vodafone;
     errors := ∅;
     bookingId := bookingId;
     picker := None |}.

(** [ticketType === 'vip' ? '500' : '350'] *)
Definition ticketPrice (wz : Wizard) : jstring :=
  match ticketType wz with
  | Some vip => lit "500"
  | _ => lit "350"
  end.

(** [ticketType || 'classic'] *)
Definition ticketType_or_classic (wz : Wizard) : TheaterType :=
  default classic (ticketType wz).

(** The [ticketInfos] of [handlePayment]; [today] is what
    [new Date().toLocaleDateString(...)] gives. *)
Definition ticketInfos (today : jstring) (wz : Wizard)
  : list TicketGenerator.TicketInfo :=
  List.map
    (fun seat =>
       {| TicketGenerator.bookingId := bookingId wz;
          TicketGenerator.guestName := name (formData (state wz));
          TicketGenerator.ticketType := ticketType_or_classic wz;
          TicketGenerator.row := SeatRef.row seat;
          TicketGenerator.seatNumber := SeatRef.seat_number seat;
          TicketGenerator.eventName := lit "Cinema Event 2026";
          TicketGenerator.eventDate := today;
          TicketGenerator.ticketPrice := ticketPrice wz |})
    (selectedSeats (state wz)).

(** The argument [handlePayment] gives [createBooking]. *)
Definition bookingData (wz : Wizard) : BookingService.BookingData.t :=
  {| BookingService.BookingData.name := name (formData (state wz));
     BookingService.BookingData.phone := phone (formData (state wz));
     BookingService.BookingData.email := Some (email (formData (state wz)));
     BookingService.BookingData.theater_type := ticketType_or_classic wz;
     BookingService.BookingData.seats :=
       List.map
         (fun s => {| SeatRef.row := SeatRef.row s;
                      SeatRef.seat_number := SeatRef.seat_number s |})
         (selectedSeats (state wz));
     BookingService.BookingData.payment_method :=
       payment_name (paymentMethod wz);
     BookingService.BookingData.receipt_url := Some [] |}.

Definition set_isLoading (b : bool) (wz : Wizard) : Wizard :=
  {| step := step wz;
     ticketType := ticketType wz;
     state :=
       {| formData := formData (state wz);
          selectedSeats := selectedSeats (state wz);
          bookedSeats := bookedSeats (state wz);
          maxQuantity := maxQuantity (state wz);
          isLoading := b |};
     paymentMethod := paymentMethod wz;
     errors := errors wz;
     bookingId := bookingId wz;
     picker := picker wz |}.

Definition set_step (n : Z) (wz : Wizard) : Wizard :=
  {| step := n;
     ticketType := ticketType wz;
     state := state wz;
     paymentMethod := paymentMethod wz;
     errors := errors wz;
     bookingId := bookingId wz;
     picker := picker wz |}.

(** The page the wizard runs in: the wizard, the booking service and its
    store, the browser, the toasts shown, and today's date as the browser
    writes it. *)
Record Page := {
  wizard : Wizard;
  service : BookingService.World;
  browser : TicketGenerator.Browser;
  toasts : list Toast;
  today : jstring;
}.

(** [console.error('[v0] Payment error:', error)] *)
Definition log_payment_error (error : BookingService.PostgrestError)
    (w : BookingService.World) : BookingService.World :=
  {| BookingService.store := BookingService.store w;
     BookingService.network := BookingService.network w;
     BookingService.console :=
       BookingService.console w ++ [(lit "[v0] Payment error:", error)] |}.

Section HandlePayment.

Variable generate_id : BookingService.Store -> jstring.

(** [handlePayment], run from the click to the point where it settles or
    stops for good: the page then, and the state of its promise. *)
Definition handlePayment (p : Page)
  : Page * TicketGenerator.Promise unit :=
  let loading := set_isLoading true (wizard p) in
  let infos := ticketInfos (today p) (wizard p) in
  match BookingService.createBooking generate_id (bookingData (wizard p))
          (service p) with
  | (w', BookingService.Threw error) =>
      ({| wizard := set_isLoading false loading;
          service := log_payment_error error w';
          browser := browser p;
          toasts := toasts p ++ [PaymentError];
          today := today p |}, TicketGenerator.Fulfilled tt)
  | (w', BookingService.Returned _) =>
      match TicketGenerator.downloadMultipleTickets infos (browser p) with
      | (b', TicketGenerator.Fulfilled _) =>
          ({| wizard := set_isLoading false (set_step 6 loading);
              service := w';
              browser := b';
              toasts := toasts p ++ [TicketsDownloaded];
              today := today p |}, TicketGenerator.Fulfilled tt)
      | (b', TicketGenerator.Pending) =>
          (* the await never resumes: neither catch nor finally runs *)
          ({| wizard := loading;
              service := w';
              browser := b';
              toasts := toasts p;
              today := today p |}, TicketGenerator.Pending)
      | (b', TicketGenerator.Rejected reason) =>
          ({| wizard := set_isLoading false loading;
              service :=
                log_payment_error
                  {| BookingService.message := reason;
                     BookingService.code := [] |} w';
              browser := b';
              toasts := toasts p ++ [PaymentError];
              today := today p |}, TicketGenerator.Fulfilled tt)
      end
  end.

End HandlePayment.

End BookingFlowV2.

(** ** The earlier wizard (booking-flow.tsx) *)

Module BookingFlow.

Record FormData := {
  name : jstring;
  phone : jstring;
  email : jstring;
  quantity : Z;
}.

Definition validate (formData : FormData) : Errors :=
  let errors : Errors := ∅ in
  let errors :=
    if strlen (trim (name formData)) <? 2
    then <[lit "name" := lit "name"]> errors else errors in
  let errors :=
    if negb (Regex.test Patterns.phone (remove_whitespace (phone formData)))
    then <[lit "phone" := lit "phone"]> errors else errors in
  let errors :=
    if truthy (email formData)
       && negb (Regex.test Patterns.email (email formData))
    then <[lit "email" := lit "email"]> errors else errors in
  let errors :=
    if quantity formData <? 1
    then <[lit "quantity" := lit "quantity"]> errors else errors in
  errors.

End BookingFlow.

(** ** Sequences of calls to the booking service *)

Module ServiceCalls.
Import BookingService.

(** One call of an exported function of the service. *)
Inductive Call : Type :=
| CallAvailableSeats (theaterType : TheaterType)
| CallSeatLayout (theaterType : TheaterType)
| CallBookedSeats (theaterType : TheaterType)
| CallCreateBooking (bookingData : BookingData.t)
| CallGetBooking (bookingId : jstring).

Section Perform.

Variable generate_id : Store -> jstring.
Variable not_single : PostgrestError.

(** The world after a call, whatever the call answers. *)
Definition perform (w : World) (c : Call) : World :=
  match c with
  | CallAvailableSeats t => fst (getAvailableSeats t w)
  | CallSeatLayout t => fst (getSeatLayout t w)
  | CallBookedSeats t => fst (getBookedSeats t w)
  | CallCreateBooking bd => fst (createBooking generate_id bd w)
  | CallGetBooking i => fst (getBooking not_single i w)
  end.

End Perform.

(** What never changes of a seat. *)
Definition seat_fixed (s : Seat.t)
  : jstring * TheaterType * jstring * Z * jstring :=
  (Seat.id s, Seat.theater_type s, Seat.row s, Seat.seat_number s,
   Seat.created_at s).

(** How the store may differ after calls: the same seats, none of them
    released, and bookings and seat claims only added at the end. *)
Definition evolves (st st' : Store) : Prop :=
  List.map seat_fixed (theater_seats st') = List.map seat_fixed (theater_seats st)
  /\ Forall2
       (fun s s' => Seat.is_available s = false -> Seat.is_available s' = false)
       (theater_seats st) (theater_seats st')
  /\ (exists more, bookings st' = bookings st ++ more)
  /\ (exists more, booking_seats st' = booking_seats st ++ more).

End ServiceCalls.

(** ** The specification's wording *)

Module Spec.

(** A decimal digit, [0] to [9]. *)
Definition digit (c : N) : Prop := (48 <= c <= 57)%N.


(** A code unit that is neither white space nor [@]. *)
Definition plain (c : N) : Prop := is_whitespace c = false /\ c <> 64%N.

(** The shape [local@domain.tld]: three parts, none empty, of plain code
    units, the first two joined by [@] and the last two by a dot. *)
Definition email_shape (s : jstring) : Prop :=
  exists l d t : jstring,
    s = l ++ lit "@" ++ d ++ lit "." ++ t
    /\ l <> [] /\ d <> [] /\ t <> []
    /\ Forall plain l /\ Forall plain d /\ Forall plain t.

(** "Row compared lexicographically": a proper prefix comes first, and
    otherwise the first code unit that differs decides. *)
Inductive lex_lt : jstring -> jstring -> Prop :=
| lex_prefix a c b : lex_lt a (a ++ c :: b)
| lex_differ p x a y b : (x < y)%N -> lex_lt (p ++ x :: a) (p ++ y :: b).

(** "Ordered by row then seat number (ascending, row compared
    lexicographically, number numerically)". *)
Definition row_then_number (a b : BookingService.Seat.t) : Prop :=
  lex_lt (BookingService.Seat.row a) (BookingService.Seat.row b)
  \/ (BookingService.Seat.row a = BookingService.Seat.row b
      /\ BookingService.Seat.seat_number a <= BookingService.Seat.seat_number b).

(** The same order on the seat claims of a booking. *)
Definition claims_row_then_number (a b : BookingService.BookingSeat.t) : Prop :=
  lex_lt (BookingService.BookingSeat.row a) (BookingService.BookingSeat.row b)
  \/ (BookingService.BookingSeat.row a = BookingService.BookingSeat.row b
      /\ BookingService.BookingSeat.seat_number a
         <= BookingService.BookingSeat.seat_number b).

(** "All seats of [tier] where availability = true". *)
Definition available_in (tier : TheaterType) (s : BookingService.Seat.t) : bool :=
  theater_eqb (BookingService.Seat.theater_type s) tier
  && BookingService.Seat.is_available s.

(** "Invariant: (tier, row, number) is unique." *)
Definition seat_identity (s : BookingService.Seat.t) : TheaterType * jstring * Z :=
  (BookingService.Seat.theater_type s, BookingService.Seat.row s,
   BookingService.Seat.seat_number s).

Definition seats_unique (st : BookingService.Store) : Prop :=
  NoDup (List.map seat_identity (BookingService.theater_seats st)).

(** "Each (row, number) pair must exist in the seat layout for [tier]". *)
Definition in_layout (tier : TheaterType) (seat : SeatRef.t) : bool :=
  existsb
    (fun rc : jstring * Z =>
       bool_decide (SeatRef.row seat = fst rc)
       && (1 <=? SeatRef.seat_number seat)
       && (SeatRef.seat_number seat <=? snd rc))
    (SeatLayout.seatLayout tier).

(** The seat of the store that an object [{ row, seat_number }] of a tier
    refers to. *)
Definition refers_to (tier : TheaterType) (seat : SeatRef.t)
    (s : BookingService.Seat.t) : Prop :=
  BookingService.Seat.theater_type s = tier
  /\ BookingService.Seat.row s = SeatRef.row seat
  /\ BookingService.Seat.seat_number s = SeatRef.seat_number seat.

End Spec.

(** ** Sample data *)

Module Examples.
Import BookingService.

Definition ref (row : string) (n : Z) : SeatRef.t :=
  {| SeatRef.row := lit row; SeatRef.seat_number := n |}.

(** A seat whose id is the one [createBooking] computes for it. *)
Definition seat (tier : TheaterType) (r : SeatRef.t) (free : bool) : Seat.t :=
  {| Seat.id := seatId tier r;
     Seat.theater_type := tier;
     Seat.row := SeatRef.row r;
     Seat.seat_number := SeatRef.seat_number r;
     Seat.is_available := free;
     Seat.created_at := lit "2026-02-28T00:00:00Z" |}.

(** The seats of a tier, row by row as the layout lists them. *)
Definition refs (tier : TheaterType) : list SeatRef.t :=
  flat_map
    (fun rc : jstring * Z =>
       List.map
         (fun i => {| SeatRef.row := fst rc; SeatRef.seat_number := Z.of_nat i |})
         (seq 1 (Z.to_nat (snd rc))))
    (SeatLayout.seatLayout tier).

(** A seeded store in which the first [taken] seats of each tier are
    booked, and nothing else is recorded. *)
Definition seeded (taken : nat) : Store :=
  {| theater_seats :=
       List.map (fun r => seat vip r false) (firstn taken (refs vip))
       ++ List.map (fun r => seat vip r true) (skipn taken (refs vip))
       ++ List.map (fun r => seat classic r false) (firstn taken (refs classic))
       ++ List.map (fun r => seat classic r true) (skipn taken (refs classic));
     bookings := [];
     booking_seats := [] |}.

(** A store that holds seat A1 of the small tier under a key of its own
    making, as a table with generated keys would. *)
Definition generated_keys : Store :=
  {| theater_seats :=
       [ {| Seat.id := lit "0b5c9a52-7f0e-4c1d-9a57-3f2f1f0c8d11";
            Seat.theater_type := vip;
            Seat.row := lit "A";
            Seat.seat_number := 1;
            Seat.is_available := true;
            Seat.created_at := lit "2026-02-28T00:00:00Z" |} ];
     bookings := [];
     booking_seats := [] |}.

(** A store that holds seat A1 of the small tier twice, in one row that is
    available and in one that is not. *)
Definition duplicated : Store :=
  {| theater_seats :=
       [ {| Seat.id := lit "7d1f2c7e-52a4-4a7b-8d0a-0c5e3c1b9f01";
            Seat.theater_type := vip;
            Seat.row := lit "A";
            Seat.seat_number := 1;
            Seat.is_available := true;
            Seat.created_at := lit "2026-02-28T00:00:00Z" |};
         {| Seat.id := lit "c2a8e0b4-1f6d-4e0c-9b55-6a4f7d2e8a02";
            Seat.theater_type := vip;
            Seat.row := lit "A";
            Seat.seat_number := 1;
            Seat.is_available := false;
            Seat.created_at := lit "2026-02-28T00:00:00Z" |} ];
     bookings := [];
     booking_seats := [] |}.

(** A world in which no request fails. *)
Definition online (st : Store) : World :=
  {| store := st; network := []; console := [] |}.

(** Keys for new bookings: B0, B1, ... *)
Definition generate_id (st : Store) : jstring :=
  lit "B" ++ Number_toString (Z.of_nat (List.length (bookings st))).

Definition bookingData (seats : list SeatRef.t) : BookingData.t :=
  {| BookingData.name := lit "Test User";
     BookingData.phone := lit "01011112222";
     BookingData.email := Some [];
     BookingData.theater_type := vip;
     BookingData.seats := seats;
     BookingData.payment_method := lit "vodafone";
     BookingData.receipt_url := Some [] |}.

Definition offline : PostgrestError :=
  {| message := lit "Failed to fetch"; code := [] |}.

(** The wizard on its payment step, with two seats chosen. *)
Definition wizard_at_payment : BookingFlowV2.Wizard :=
  {| BookingFlowV2.step := 5;
     BookingFlowV2.ticketType := Some vip;
     BookingFlowV2.state :=
       {| BookingFlowV2.formData :=
            {| BookingFlowV2.name := lit "Test User";
               BookingFlowV2.phone := lit "01011112222";
               BookingFlowV2.email := [];
               BookingFlowV2.quantity := 2 |};
          BookingFlowV2.selectedSeats := [ref "A" 1; ref "A" 2];
          BookingFlowV2.bookedSeats := ∅;
          BookingFlowV2.maxQuantity := 10;
          BookingFlowV2.isLoading := false |};
     BookingFlowV2.paymentMethod := BookingFlowV2.vodafone;
     BookingFlowV2.errors := ∅;
     BookingFlowV2.bookingId := lit "RT-ABC123";
     BookingFlowV2.picker := None |}.

(** The page around it: a seeded store with nothing booked, the fates of
    the coming requests and the canvases the browser will make. *)
Definition page (fates : list (option PostgrestError))
    (canvases : list TicketGenerator.Canvas) : BookingFlowV2.Page :=
  {| BookingFlowV2.wizard := wizard_at_payment;
     BookingFlowV2.service :=
       {| store := seeded 0; network := fates; console := [] |};
     BookingFlowV2.browser :=
       {| TicketGenerator.canvases := canvases;
          TicketGenerator.events := [] |};
     BookingFlowV2.toasts := [];
     BookingFlowV2.today := lit "3/15/2026" |}.

End Examples.

(** * Properties *)

(** ** Regular expressions: [test] decides the language *)

Section RegexFacts.
Import Regex.

Lemma Matches_nil_nullable r s : Matches r s -> s = [] -> nullable r = true.
Proof.
  induction 1 as [ | | r1 r2 s1 s2 _ IH1 _ IH2 | r1 r2 s _ IH | r1 r2 s _ IH
                 | | ]; intros E; simpl; trivial.
  - discriminate.
  - apply app_eq_nil in E as [-> ->]. now rewrite IH1, IH2.
  - now rewrite IH.
  - rewrite IH by assumption. apply orb_true_r.
Qed.

Lemma nullable_Matches r : nullable r = true <-> Matches r [].
Proof.
  split; [| intros H; now apply (Matches_nil_nullable r [])].
  induction r as [ | | p | r1 IH1 r2 IH2 | r1 IH1 r2 IH2 | r IH ]; simpl; intros H;
    try discriminate.
  - constructor.
  - apply andb_true_iff in H as [H1 H2].
    change (@nil N) with (@nil N ++ []). constructor; auto.
  - apply orb_true_iff in H as [H | H]; [apply MAltL | apply MAltR]; auto.
  - constructor.
Qed.

Lemma deriv_sound c r : forall s, Matches (deriv c r) s -> Matches r (c :: s).
Proof.
  induction r as [ | | p | r1 IH1 r2 IH2 | r1 IH1 r2 IH2 | r IH ]; simpl; intros s H.
  - inversion H.
  - inversion H.
  - destruct (p c) eqn:E; inversion H; subst. now constructor.
  - destruct (nullable r1) eqn:E.
    + inversion H as [ | | | ? ? ? H' | ? ? ? H' | | ]; subst.
      * inversion H' as [ | | ? ? s1 s2 Ha Hb | | | | ]; subst.
        change (c :: s1 ++ s2) with ((c :: s1) ++ s2). constructor; auto.
      * change (c :: s) with ([] ++ c :: s). constructor; auto.
        now apply nullable_Matches.
    + inversion H as [ | | ? ? s1 s2 Ha Hb | | | | ]; subst.
      change (c :: s1 ++ s2) with ((c :: s1) ++ s2). constructor; auto.
  - inversion H; subst; [apply MAltL | apply MAltR]; auto.
  - inversion H as [ | | ? ? s1 s2 Ha Hb | | | | ]; subst.
    change (c :: s1 ++ s2) with ((c :: s1) ++ s2). constructor; auto.
Qed.

Lemma deriv_complete c r cs :
  Matches r cs -> forall s, cs = c :: s -> Matches (deriv c r) s.
Proof.
  induction 1 as [ | p d Hp | r1 r2 s1 s2 H1 IH1 H2 IH2 | r1 r2 s0 H IH
                 | r1 r2 s0 H IH | | r s1 s2 H1 IH1 H2 IH2 ]; intros s E; simpl.
  - discriminate.
  - injection E as -> <-. rewrite Hp. constructor.
  - destruct s1 as [| d s1'].
    + simpl in E. subst s2.
      rewrite (Matches_nil_nullable r1 [] H1 eq_refl).
      apply MAltR. now apply IH2.
    + injection E as -> <-.
      destruct (nullable r1); [apply MAltL |]; constructor; auto.
  - apply MAltL. auto.
  - apply MAltR. auto.
  - discriminate.
  - destruct s1 as [| d s1'].
    + simpl in E. now apply IH2.
    + injection E as -> <-. constructor; auto.
Qed.

Lemma test_Matches r s : test r s = true <-> Matches r s.
Proof.
  revert r. induction s as [| c s IH]; intros r; simpl.
  - apply nullable_Matches.
  - rewrite IH. split.
    + apply deriv_sound.
    + intros H. now apply (deriv_complete c r (c :: s)).
Qed.

Lemma Matches_Chr c s : Matches (Chr c) s <-> s = [c].
Proof.
  unfold Chr. split.
  - inversion 1 as [ | ? d Hd | | | | | ]; subst.
    apply N.eqb_eq in Hd. now subst.
  - intros ->. constructor. apply N.eqb_refl.
Qed.




End RegexFacts.

(** ** Form validation *)

Section ValidationFacts.




End ValidationFacts.

(** ** The order of the store's answers *)

Section OrderFacts.

Lemma N_compare_trans (x y z : N) (c : comparison) :
  (x ?= y)%N = c -> (y ?= z)%N = c -> (x ?= z)%N = c.
Proof.
  destruct c; intros H1 H2.
  - apply N.compare_eq_iff in H1, H2. subst. apply N.compare_refl.
  - exact (N.lt_trans x y z H1 H2).
  - apply N.lt_gt. exact (N.lt_trans z y x (N.gt_lt _ _ H2) (N.gt_lt _ _ H1)).
Qed.

Lemma compare_eq (a b : jstring) : JS.compare a b = Eq <-> a = b.
Proof. apply list_compare_refl, N.compare_eq_iff. Qed.

Lemma compare_antisym (a b : jstring) :
  JS.compare b a = CompOpp (JS.compare a b).
Proof.
  apply list_compare_antisym; [apply N.compare_eq_iff |].
  intros. apply N.compare_antisym.
Qed.

Lemma compare_trans (a b c : jstring) (o : comparison) :
  JS.compare a b = o -> JS.compare b c = o -> JS.compare a c = o.
Proof.
  apply list_compare_trans.
  - apply N.compare_eq_iff.
  - apply N_compare_trans.
  - intros. apply N.compare_antisym.
Qed.

(** The comparison is the lexicographic order of the specification. *)
Lemma compare_lt_lex (a b : jstring) : JS.compare a b = Lt <-> Spec.lex_lt a b.
Proof.
  unfold JS.compare. split.
  - intros H.
    destruct (@list_compareP N N.compare N.compare_eq_iff a b)
      as [ | y ys E | | p x xs y ys E1 E2 L | ]; try discriminate; subst.
    + constructor.
    + constructor. now apply N.compare_lt_iff.
  - intros [a' c b' | p x a' y b' L];
      apply (@list_compare_spec_complete N N.compare N.compare_eq_iff).
    + now apply ListCompareShorter with c b'.
    + now apply ListCompareLt with p x a' y b'.
Qed.

#[local] Instance seat_order_total : Total BookingService.seat_order.
Proof.
  intros a b. unfold BookingService.seat_order.
  rewrite (compare_antisym (BookingService.Seat.row a) (BookingService.Seat.row b)).
  destruct (JS.compare _ _); simpl; auto.
  destruct (Z.le_ge_cases (BookingService.Seat.seat_number a)
              (BookingService.Seat.seat_number b)); auto.
Qed.

#[local] Instance seat_order_trans : Transitive BookingService.seat_order.
Proof.
  intros a b c. unfold BookingService.seat_order.
  intros [H1 | [H1 L1]] [H2 | [H2 L2]].
  - left. eapply compare_trans; eauto.
  - left. apply compare_eq in H2. now rewrite <- H2.
  - left. apply compare_eq in H1. now rewrite H1.
  - right. split; [eapply compare_trans; eauto | lia].
Qed.

Lemma seat_order_spec a b :
  BookingService.seat_order a b <-> Spec.row_then_number a b.
Proof.
  unfold BookingService.seat_order, Spec.row_then_number.
  now rewrite compare_lt_lex, compare_eq.
Qed.

Lemma select_theater_seats_sorted tier flag st :
  StronglySorted Spec.row_then_number
    (snd (BookingService.select_theater_seats tier flag st)).
Proof.
  simpl.
  assert (H : StronglySorted BookingService.seat_order
                (merge_sort BookingService.seat_order
                   (List.filter
                      (fun s =>
                         theater_eqb (BookingService.Seat.theater_type s) tier
                         && match flag with
                            | Some b => Bool.eqb (BookingService.Seat.is_available s) b
                            | None => true
                            end)
                      (BookingService.theater_seats st))))
    by (apply StronglySorted_merge_sort; apply _).
  induction H as [| x l _ IH F]; constructor; trivial.
  eapply Forall_impl; [exact F |]. intros y. apply seat_order_spec.
Qed.

Lemma select_theater_seats_perm tier flag st :
  Permutation
    (snd (BookingService.select_theater_seats tier flag st))
    (List.filter
       (fun s =>
          theater_eqb (BookingService.Seat.theater_type s) tier
          && match flag with
             | Some b => Bool.eqb (BookingService.Seat.is_available s) b
             | None => true
             end)
       (BookingService.theater_seats st)).
Proof. simpl. apply merge_sort_Permutation. Qed.

End OrderFacts.

(** ** The seat inventory reader *)

Section ReaderFacts.
Import BookingService.

(** What a read of the seats of a tier does, by the fate of its request. *)
Lemma getAvailableSeats_run tier w :
  getAvailableSeats tier w =
  match network w with
  | Some e :: rest =>
      ({| store := store w; network := rest;
          console := console w
                       ++ [(lit "[v0] Error fetching available seats:", e)] |},
       Returned [])
  | None :: rest =>
      ({| store := store w; network := rest; console := console w |},
       Returned (snd (select_theater_seats tier (Some true) (store w))))
  | [] =>
      ({| store := store w; network := []; console := console w |},
       Returned (snd (select_theater_seats tier (Some true) (store w))))
  end.
Proof.
  unfold getAvailableSeats, try_catch, bind, request.
  destruct (network w) as [| [e |] rest]; reflexivity.
Qed.

Lemma getBookedSeats_run tier w :
  getBookedSeats tier w =
  match network w with
  | Some e :: rest =>
      ({| store := store w; network := rest;
          console := console w
                       ++ [(lit "[v0] Error fetching booked seats:", e)] |},
       Returned [])
  | None :: rest =>
      ({| store := store w; network := rest; console := console w |},
       Returned (List.map row_seat_number
                   (snd (select_theater_seats tier (Some false) (store w)))))
  | [] =>
      ({| store := store w; network := []; console := console w |},
       Returned (List.map row_seat_number
                   (snd (select_theater_seats tier (Some false) (store w)))))
  end.
Proof.
  unfold getBookedSeats, try_catch, bind, request.
  destruct (network w) as [| [e |] rest]; reflexivity.
Qed.

Lemma select_theater_seats_In tier flag st s :
  In s (snd (select_theater_seats tier flag st))
  <-> In s (theater_seats st)
      /\ Seat.theater_type s = tier
      /\ match flag with
         | Some b => Seat.is_available s = b
         | None => True
         end.
Proof.
  split.
  - intros H.
    apply (Permutation_in _ (select_theater_seats_perm tier flag st)) in H.
    apply filter_In in H as [H1 H2]. apply andb_true_iff in H2 as [H2 H3].
    split; [assumption |]. split.
    + destruct (Seat.theater_type s), tier; trivial; discriminate.
    + destruct flag; [now apply Bool.eqb_prop | trivial].
  - intros (H1 & H2 & H3).
    apply (Permutation_in _
             (Permutation_sym (select_theater_seats_perm tier flag st))).
    apply filter_In. split; [assumption |]. apply andb_true_iff. split.
    + subst tier. now destruct (Seat.theater_type s).
    + destruct flag; [subst; apply Bool.eqb_reflx | trivial].
Qed.

(** C6.  [getAvailableSeats] always returns and never throws, and leaves
    the store as it was.  When its request fails it returns the empty
    sequence; otherwise it returns exactly the seats of the tier whose
    availability flag is true (each as often as the store holds it),
    ordered by row and then by seat number, ascending. *)
Theorem getAvailableSeats_contract (tier : TheaterType) (w : World) :
  exists (w' : World) (seats : list Seat.t),
    getAvailableSeats tier w = (w', Returned seats)
    /\ store w' = store w
    /\ match network w with
       | Some e :: _ => seats = []
       | _ =>
           Permutation seats
             (List.filter (Spec.available_in tier) (theater_seats (store w)))
           /\ StronglySorted Spec.row_then_number seats
       end.
Proof.
  rewrite getAvailableSeats_run.
  assert (P : Permutation
                (snd (select_theater_seats tier (Some true) (store w)))
                (List.filter (Spec.available_in tier) (theater_seats (store w)))).
  { rewrite select_theater_seats_perm.
    erewrite filter_ext; [reflexivity |].
    intros s. unfold Spec.available_in.
    now destruct (Seat.is_available s), (theater_eqb _ _). }
  pose proof (select_theater_seats_sorted tier (Some true) (store w)) as S.
  destruct (network w) as [| [e |] rest]; eexists _, _; simpl; eauto.
Qed.

Lemma NoDup_map_injective {A B} (f : A -> B) (l : list A) x y :
  NoDup (List.map f l) -> In x l -> In y l -> f x = f y -> x = y.
Proof.
  induction l as [| a l IH]; simpl; [easy |].
  rewrite NoDup_cons. intros [N1 N2] [-> | Hx] [-> | Hy] E; trivial.
  - exfalso. apply N1. rewrite E. apply list_elem_of_In. now apply in_map.
  - exfalso. apply N1. rewrite <- E. apply list_elem_of_In. now apply in_map.
  - now apply IH.
Qed.

(** C7, under the invariant of the data model.  On any one state of the
    store in which the triple (tier, row, number) identifies a seat, the
    answers of [getAvailableSeats] and [getBookedSeats] for a tier share
    no seat: no (row, number) of an available seat is among the booked
    ones.  The two reads may each succeed or fail. *)
Theorem available_booked_disjoint (tier : TheaterType) (st : Store)
    (n1 n2 : list (option PostgrestError))
    (c1 c2 : list (jstring * PostgrestError))
    (w1 w2 : World) (avail : list Seat.t) (booked : list SeatRef.t) :
  Spec.seats_unique st ->
  getAvailableSeats tier {| store := st; network := n1; console := c1 |}
    = (w1, Returned avail) ->
  getBookedSeats tier {| store := st; network := n2; console := c2 |}
    = (w2, Returned booked) ->
  forall (a : Seat.t) (b : SeatRef.t),
    In a avail -> In b booked ->
    ~ (Seat.row a = SeatRef.row b /\ Seat.seat_number a = SeatRef.seat_number b).
Proof.
  intros U Ha Hb a b Ia Ib [Er En].
  rewrite getAvailableSeats_run in Ha. rewrite getBookedSeats_run in Hb.
  simpl in Ha, Hb.
  assert (Ia' : In a (snd (select_theater_seats tier (Some true) st))).
  { destruct n1 as [| [e |] rest]; injection Ha as _ <-; trivial. destruct Ia. }
  assert (Ib' : In b (List.map row_seat_number
                        (snd (select_theater_seats tier (Some false) st)))).
  { destruct n2 as [| [e |] rest]; injection Hb as _ <-; trivial. destruct Ib. }
  apply select_theater_seats_In in Ia' as (A1 & A2 & A3).
  apply in_map_iff in Ib' as (s & <- & Is).
  apply select_theater_seats_In in Is as (B1 & B2 & B3).
  assert (E : a = s).
  { apply (NoDup_map_injective Spec.seat_identity (theater_seats st)); trivial.
    unfold Spec.seat_identity. simpl in Er, En. congruence. }
  subst s. congruence.
Qed.

End ReaderFacts.

Section ReaderWitnesses.
Import BookingService.

Lemma seeded_unique : Spec.seats_unique (Examples.seeded 2).
Proof.
  unfold Spec.seats_unique.
  apply (bool_decide_unpack _). vm_compute. reflexivity.
Qed.

Lemma available_booked_disjoint_witness :
  Spec.seats_unique (Examples.seeded 2)
  /\ getAvailableSeats vip (Examples.online (Examples.seeded 2))
     = (Examples.online (Examples.seeded 2),
        Returned (List.map (fun r => Examples.seat vip r true)
                    (skipn 2 (Examples.refs vip))))
  /\ getBookedSeats vip (Examples.online (Examples.seeded 2))
     = (Examples.online (Examples.seeded 2),
        Returned [Examples.ref "A" 1; Examples.ref "A" 2])
  /\ ~ (Seat.row (Examples.seat vip (Examples.ref "A" 3) true)
          = SeatRef.row (Examples.ref "A" 1)
        /\ Seat.seat_number (Examples.seat vip (Examples.ref "A" 3) true)
          = SeatRef.seat_number (Examples.ref "A" 1)).
Proof.
  assert (Ha : getAvailableSeats vip (Examples.online (Examples.seeded 2))
               = (Examples.online (Examples.seeded 2),
                  Returned (List.map (fun r => Examples.seat vip r true)
                              (skipn 2 (Examples.refs vip)))))
    by (vm_compute; reflexivity).
  assert (Hb : getBookedSeats vip (Examples.online (Examples.seeded 2))
               = (Examples.online (Examples.seeded 2),
                  Returned [Examples.ref "A" 1; Examples.ref "A" 2]))
    by (vm_compute; reflexivity).
  split; [exact seeded_unique |]. split; [exact Ha |]. split; [exact Hb |].
  apply (available_booked_disjoint vip (Examples.seeded 2) [] [] [] []
           _ _ _ _ seeded_unique Ha Hb).
  - vm_compute. auto.
  - vm_compute. auto.
Defined.

(** C7 fails on a store in which the triple (tier, row, number) does not
    identify a seat: when seat A1 of a tier is held twice, once available
    and once not, both reads succeed and A1 is in both answers. *)
Lemma available_booked_overlap :
  let w := Examples.online Examples.duplicated in
  exists (a : Seat.t) (b : SeatRef.t),
    snd (getAvailableSeats vip w) = Returned [a]
    /\ snd (getBookedSeats vip w) = Returned [b]
    /\ Seat.theater_type a = vip
    /\ Seat.row a = SeatRef.row b
    /\ Seat.seat_number a = SeatRef.seat_number b.
Proof. cbv zeta. do 2 eexists. vm_compute. repeat split. Qed.

End ReaderWitnesses.

(** ** The booking writer *)

Section WriterFacts.
Import BookingService.

Variable generate_id : Store -> jstring.

Lemma filter_all {A} (f : A -> bool) (l : list A) :
  Forall (fun x => f x = true) l -> List.filter f l = l.
Proof.
  induction 1 as [| x l Hx _ IH]; simpl; trivial. now rewrite Hx, IH.
Qed.

Lemma filter_none {A} (f : A -> bool) (l : list A) :
  Forall (fun x => f x = false) l -> List.filter f l = [].
Proof.
  induction 1 as [| x l Hx _ IH]; simpl; trivial. now rewrite Hx.
Qed.

(** A call that returns has run its three steps, in order. *)
Lemma createBooking_Returned bd w w' booking :
  createBooking generate_id bd w = (w', Returned booking) ->
  booking = snd (insert_booking generate_id bd (store w))
  /\ store w'
     = fst (update_unavailable_in (seatIds bd)
              (fst (insert_booking_seats (bookingSeatsData booking bd)
                      (fst (insert_booking generate_id bd (store w)))))).
Proof.
  unfold createBooking, try_catch, bind, request, throw, ret, console_error.
  destruct (network w) as [| [e1 |] [| [e2 |] [| [e3 |] rest]]]; simpl;
    intros H; inversion H; subst; auto.
Qed.

(** C2.  Whichever of the three steps of [createBooking] is the first to
    fail, the call throws that step's error to its caller, and the store
    keeps what the earlier steps wrote: nothing when the booking insert
    fails, the new booking row when the seat-claim insert fails, and the
    booking row with its seat claims when the availability update fails. *)
Theorem createBooking_no_rollback (bd : BookingData.t) (st : Store)
    (rest : list (option PostgrestError))
    (log : list (jstring * PostgrestError)) (e : PostgrestError) :
  let booking := snd (insert_booking generate_id bd st) in
  let st1 := fst (insert_booking generate_id bd st) in
  let st2 := fst (insert_booking_seats (bookingSeatsData booking bd) st1) in
  let log' := log ++ [(lit "[v0] Error creating booking:", e)] in
  createBooking generate_id bd
    {| store := st; network := Some e :: rest; console := log |}
  = ({| store := st; network := rest; console := log' |}, Threw e)
  /\ createBooking generate_id bd
       {| store := st; network := None :: Some e :: rest; console := log |}
     = ({| store := st1; network := rest; console := log' |}, Threw e)
  /\ createBooking generate_id bd
       {| store := st; network := None :: None :: Some e :: rest;
          console := log |}
     = ({| store := st2; network := rest; console := log' |}, Threw e)
  /\ bookings st1 = bookings st ++ [booking]
  /\ booking_seats st1 = booking_seats st
  /\ bookings st2 = bookings st ++ [booking]
  /\ booking_seats st2 = booking_seats st ++ bookingSeatsData booking bd
  /\ theater_seats st2 = theater_seats st.
Proof. cbv zeta. repeat split. Qed.

(** C3.  A call of [createBooking] that returns has inserted exactly one
    seat claim per element of [seats], in order, each carrying the id of
    the booking row it inserted, and that row records [seats.length] as its
    [total_seats]; so when no earlier claim carries that id, the claims of
    the new booking number exactly [seats.length]. *)
Theorem createBooking_claims (bd : BookingData.t) (w w' : World)
    (booking : Booking.t) :
  createBooking generate_id bd w = (w', Returned booking) ->
  exists claims : list BookingSeat.t,
    booking_seats (store w') = booking_seats (store w) ++ claims
    /\ List.length claims = List.length (BookingData.seats bd)
    /\ Forall (fun c => BookingSeat.booking_id c = Booking.id booking) claims
    /\ List.map (fun c => (BookingSeat.row c, BookingSeat.seat_number c)) claims
       = List.map (fun s => (SeatRef.row s, SeatRef.seat_number s))
           (BookingData.seats bd)
    /\ bookings (store w') = bookings (store w) ++ [booking]
    /\ Booking.total_seats booking
       = Z.of_nat (List.length (BookingData.seats bd))
    /\ (Forall (fun c => BookingSeat.booking_id c <> Booking.id booking)
          (booking_seats (store w)) ->
        List.length
          (List.filter
             (fun c => bool_decide (BookingSeat.booking_id c = Booking.id booking))
             (booking_seats (store w')))
        = List.length (BookingData.seats bd)).
Proof.
  intros H. apply createBooking_Returned in H as [Hb Hs].
  exists (bookingSeatsData booking bd).
  assert (L : List.length (bookingSeatsData booking bd)
              = List.length (BookingData.seats bd))
    by apply length_map.
  assert (F : Forall (fun c => BookingSeat.booking_id c = Booking.id booking)
                (bookingSeatsData booking bd)).
  { apply Forall_forall. intros c Hc.
    apply list_elem_of_In, in_map_iff in Hc as (s & <- & _). reflexivity. }
  rewrite Hs. simpl. repeat split; trivial.
  - unfold bookingSeatsData. rewrite map_map. reflexivity.
  - now rewrite Hb.
  - now rewrite Hb.
  - intros Old. rewrite List.filter_app, length_app.
    rewrite filter_none, filter_all; trivial.
    + eapply Forall_impl; [exact F |]. intros c Hc.
      now apply bool_decide_eq_true_2.
    + eapply Forall_impl; [exact Old |]. intros c Hc.
      now apply bool_decide_eq_false_2.
Qed.

End WriterFacts.

Section SeatMarking.
Import BookingService.

Variable generate_id : Store -> jstring.

Lemma update_unavailable_in_spec ids st s' :
  In s' (theater_seats (fst (update_unavailable_in ids st)))
  <-> exists s, In s (theater_seats st)
        /\ s' = (if bool_decide (Seat.id s ∈ ids) then mark_unavailable s else s).
Proof.
  simpl. rewrite in_map_iff. split; intros (s & H1 & H2); exists s; auto.
Qed.

(** C1, as the code has it.  After a call of [createBooking] that returns,
    every row of [theater_seats] whose id is the string
    [<tier>-<row>-<number>] of a seat of [seats] has its availability flag
    false.  So when the store holds every seat of [seats] under that id,
    each of them is unavailable afterwards and its (row, number) is in the
    answer of a following [getBookedSeats] for the tier whose request does
    not fail. *)
Theorem createBooking_marks_seats (bd : BookingData.t) (w w' : World)
    (booking : Booking.t) (seat : SeatRef.t) :
  createBooking generate_id bd w = (w', Returned booking) ->
  In seat (BookingData.seats bd) ->
  (forall s, In s (theater_seats (store w')) ->
             Seat.id s = seatId (BookingData.theater_type bd) seat ->
             Seat.is_available s = false)
  /\ ((exists s, In s (theater_seats (store w))
                 /\ Spec.refers_to (BookingData.theater_type bd) seat s
                 /\ Seat.id s = seatId (BookingData.theater_type bd) seat) ->
      (exists s', In s' (theater_seats (store w'))
                  /\ Spec.refers_to (BookingData.theater_type bd) seat s'
                  /\ Seat.is_available s' = false)
      /\ forall later : World,
           store later = store w' -> request_succeeds later = true ->
           exists later' booked,
             getBookedSeats (BookingData.theater_type bd) later
               = (later', Returned booked)
             /\ In seat booked).
Proof.
  intros H Hin. apply createBooking_Returned in H as [_ Hs].
  assert (Hid : seatId (BookingData.theater_type bd) seat ∈ seatIds bd).
  { apply list_elem_of_In. unfold seatIds. now apply in_map. }
  assert (M : forall s, In s (theater_seats (store w')) ->
                Seat.id s = seatId (BookingData.theater_type bd) seat ->
                Seat.is_available s = false).
  { intros s' Hs' E. rewrite Hs in Hs'.
    apply update_unavailable_in_spec in Hs' as (s & _ & ->).
    destruct (bool_decide (Seat.id s ∈ seatIds bd)) eqn:D; [reflexivity |].
    apply bool_decide_eq_false_1 in D. now rewrite E in D. }
  split; [exact M |].
  intros (s & Is & (R1 & R2 & R3) & E).
  assert (Is' : In (mark_unavailable s) (theater_seats (store w'))).
  { rewrite Hs. apply update_unavailable_in_spec. exists s. split.
    - exact Is.
    - rewrite bool_decide_eq_true_2; [reflexivity | now rewrite E]. }
  split.
  - exists (mark_unavailable s). repeat split; trivial.
  - intros later Hl Hr. rewrite getBookedSeats_run.
    assert (Ib : In seat
                   (List.map row_seat_number
                      (snd (select_theater_seats (BookingData.theater_type bd)
                              (Some false) (store later))))).
    { apply in_map_iff. exists (mark_unavailable s). split.
      - unfold row_seat_number. simpl. rewrite R2, R3. now destruct seat.
      - apply select_theater_seats_In. rewrite Hl. repeat split; trivial. }
    unfold request_succeeds in Hr.
    destruct (network later) as [| [e |] rest]; try discriminate; eauto.
Qed.

End SeatMarking.

Section WriterExamples.
Import BookingService.

(** C1 fails as stated: seat A1 of the small tier is in the layout and in
    the store, the call returns, and yet the seat is still available and
    [getBookedSeats] does not list it, because the store keeps the seat
    under another id than the one the update names. *)
Lemma createBooking_generated_keys :
  let seat := Examples.ref "A" 1 in
  let bd := Examples.bookingData [seat] in
  let w := Examples.online Examples.generated_keys in
  exists (w' : World) (booking : Booking.t),
    createBooking Examples.generate_id bd w = (w', Returned booking)
    /\ Spec.in_layout vip seat = true
    /\ Exists (Spec.refers_to vip seat) (theater_seats (store w))
    /\ Forall (fun s => Seat.is_available s = true) (theater_seats (store w'))
    /\ getBookedSeats vip (Examples.online (store w'))
       = (Examples.online (store w'), Returned []).
Proof.
  cbv zeta. eexists _, _. split; [vm_compute; reflexivity |].
  split; [vm_compute; reflexivity |].
  split.
  - apply Exists_cons_hd. repeat split.
  - split; [| vm_compute; reflexivity].
    repeat constructor.
Qed.

Lemma createBooking_claims_witness :
  exists (w' : World) (booking : Booking.t),
    createBooking Examples.generate_id
      (Examples.bookingData [Examples.ref "A" 1; Examples.ref "B" 2])
      (Examples.online (Examples.seeded 0))
    = (w', Returned booking)
    /\ exists claims : list BookingSeat.t,
         booking_seats (store w') = claims
         /\ List.length claims = 2%nat
         /\ Booking.total_seats booking = 2.
Proof.
  eexists _, _. split; [vm_compute; reflexivity |].
  destruct (createBooking_claims Examples.generate_id
              (Examples.bookingData [Examples.ref "A" 1; Examples.ref "B" 2])
              (Examples.online (Examples.seeded 0)) _ _ eq_refl)
    as (claims & E & L & _ & _ & _ & T & _).
  exists claims. auto.
Defined.

Lemma createBooking_marks_seats_witness :
  exists (w' : World) (booking : Booking.t),
    createBooking Examples.generate_id
      (Examples.bookingData [Examples.ref "A" 1; Examples.ref "B" 2])
      (Examples.online (Examples.seeded 0))
    = (w', Returned booking)
    /\ In (Examples.ref "B" 2) [Examples.ref "A" 1; Examples.ref "B" 2]
    /\ (exists s, In s (theater_seats (Examples.seeded 0))
                  /\ Spec.refers_to vip (Examples.ref "B" 2) s
                  /\ Seat.id s = seatId vip (Examples.ref "B" 2))
    /\ exists later' booked,
         getBookedSeats vip (Examples.online (store w'))
           = (later', Returned booked)
         /\ In (Examples.ref "B" 2) booked.
Proof.
  assert (I : In (Examples.ref "B" 2) [Examples.ref "A" 1; Examples.ref "B" 2])
    by (simpl; auto).
  assert (S : exists s, In s (theater_seats (Examples.seeded 0))
                        /\ Spec.refers_to vip (Examples.ref "B" 2) s
                        /\ Seat.id s = seatId vip (Examples.ref "B" 2)).
  { exists (Examples.seat vip (Examples.ref "B" 2) true). split.
    - vm_compute. do 8 right. left. reflexivity.
    - repeat split. }
  eexists _, _. split; [vm_compute; reflexivity |].
  split; [exact I |]. split; [exact S |].
  destruct (createBooking_marks_seats Examples.generate_id
              (Examples.bookingData [Examples.ref "A" 1; Examples.ref "B" 2])
              (Examples.online (Examples.seeded 0)) _ _ (Examples.ref "B" 2)
              eq_refl I) as [_ H].
  destruct (H S) as [_ H'].
  apply H'; reflexivity.
Defined.

End WriterExamples.

(** ** The quantity field of the wizard *)

Section QuantityFacts.
Import BookingService BookingFlowV2.


End QuantityFacts.

(** ** The ticket generator *)

Section TicketFacts.
Import TicketGenerator.

(** C8.  When the canvas gives no 2D context, the promise of
    [generateIndividualTicket] is neither fulfilled nor rejected: it stays
    pending.  A download that awaits it, single or multiple, stops there:
    it adds no event, so no file is downloaded, and its own promise stays
    pending too, so the caller sees no error. *)
Theorem generateIndividualTicket_no_context (ticket : TicketInfo)
    (more : list TicketInfo) (b : Browser) (canvas : Canvas)
    (rest : list Canvas) :
  canvases b = canvas :: rest ->
  context2d canvas = false ->
  let b' := {| canvases := rest; events := events b |} in
  generateIndividualTicket ticket b = (b', Pending)
  /\ downloadSingleTicket ticket b = (b', Pending)
  /\ downloadMultipleTickets (ticket :: more) b = (b', Pending).
Proof.
  intros Hc Hx. cbv zeta.
  assert (G : generateIndividualTicket ticket b
              = ({| canvases := rest; events := events b |}, Pending)).
  { unfold generateIndividualTicket, new_Promise, createCanvas.
    rewrite Hc, Hx. reflexivity. }
  split; [exact G |]. split.
  - unfold downloadSingleTicket, await. now rewrite G.
  - simpl. unfold await at 1. now rewrite G.
Qed.

Lemma generateIndividualTicket_no_context_witness :
  let ticket :=
    {| bookingId := lit "RT-ABC123"; guestName := lit "Test User";
       ticketType := vip; row := lit "A"; seatNumber := 1;
       eventName := lit "Cinema Event 2026"; eventDate := lit "3/15/2026";
       ticketPrice := lit "500" |} in
  let b := {| canvases := [{| context2d := false; encodes := true |}];
              events := [] |} in
  downloadMultipleTickets [ticket; ticket] b
  = ({| canvases := []; events := [] |}, Pending).
Proof.
  cbv zeta.
  apply (generateIndividualTicket_no_context _ _
           {| canvases := [{| context2d := false; encodes := true |}];
              events := [] |} _ [] eq_refl eq_refl).
Defined.

Lemma generateIndividualTicket_context ticket b :
  match canvases b with
  | c :: _ => context2d c = true
  | [] => True
  end ->
  exists blob,
    generateIndividualTicket ticket b
    = ({| canvases := tl (canvases b); events := events b |}, Fulfilled blob).
Proof.
  unfold generateIndividualTicket, new_Promise, createCanvas.
  destruct b as [[| c cs] evs]; simpl.
  - eauto.
  - intros ->. simpl. eauto.
Qed.

(** C9, as the code has it.  When each of the canvases made for the
    tickets gives a 2D context, [downloadMultipleTickets] completes and
    triggers exactly one download per ticket, in the order of the tickets,
    the file for a ticket being named [Ticket-<bookingId>-<row><number>.png]. *)
Theorem downloadMultipleTickets_downloads (tickets : list TicketInfo)
    (b : Browser) :
  Forall (fun c => context2d c = true)
    (firstn (List.length tickets) (canvases b)) ->
  exists b' : Browser,
    downloadMultipleTickets tickets b = (b', Fulfilled tt)
    /\ List.map fst (downloads (events b'))
       = List.map fst (downloads (events b))
         ++ List.map
              (fun t =>
                 lit "Ticket-" ++ bookingId t ++ lit "-" ++ row t
                   ++ Number_toString (seatNumber t) ++ lit ".png")
              tickets
    /\ List.length (downloads (events b'))
       = (List.length (downloads (events b)) + List.length tickets)%nat.
Proof.
  revert b. induction tickets as [| t ts IH]; intros b F.
  - exists b. simpl. rewrite !app_nil_r. auto.
  - destruct (generateIndividualTicket_context t b) as [blob G].
    { destruct (canvases b); [trivial | now inversion F]. }
    destruct (IH {| canvases := tl (canvases b);
                    events := (events b ++ [Download (fileName t) blob])
                                ++ [Delay 300] |}) as (b' & R & N & L).
    { simpl. destruct (canvases b); simpl in *; [now rewrite firstn_nil |].
      now inversion F. }
    exists b'. split; [| split].
    + simpl. unfold await at 1. rewrite G. exact R.
    + rewrite N. simpl. unfold downloads.
      rewrite !flat_map_app, !map_app. simpl.
      rewrite app_nil_r, <- app_assoc. reflexivity.
    + rewrite L. simpl. unfold downloads.
      rewrite !flat_map_app, !length_app. simpl. lia.
Qed.

(** C9 fails as stated: with one ticket and a canvas that gives no 2D
    context, the multiple download triggers no download at all. *)
Lemma downloadMultipleTickets_no_context :
  let ticket :=
    {| bookingId := lit "RT-ABC123"; guestName := lit "Test User";
       ticketType := vip; row := lit "A"; seatNumber := 1;
       eventName := lit "Cinema Event 2026"; eventDate := lit "3/15/2026";
       ticketPrice := lit "500" |} in
  let b := {| canvases := [{| context2d := false; encodes := true |}];
              events := [] |} in
  List.length [ticket] = 1%nat
  /\ downloads (events (fst (downloadMultipleTickets [ticket] b))) = []
  /\ snd (downloadMultipleTickets [ticket] b) = Pending.
Proof. cbv zeta. repeat split. Qed.

Lemma downloadMultipleTickets_downloads_witness :
  let ticket n :=
    {| bookingId := lit "RT-ABC123"; guestName := lit "Test User";
       ticketType := vip; row := lit "A"; seatNumber := n;
       eventName := lit "Cinema Event 2026"; eventDate := lit "3/15/2026";
       ticketPrice := lit "500" |} in
  let b := {| canvases := [{| context2d := true; encodes := true |}];
              events := [] |} in
  Forall (fun c => context2d c = true) (firstn 2 (canvases b))
  /\ exists b',
       downloadMultipleTickets [ticket 1; ticket 2] b = (b', Fulfilled tt)
       /\ List.map fst (downloads (events b'))
          = [lit "Ticket-RT-ABC123-A1.png"; lit "Ticket-RT-ABC123-A2.png"].
Proof.
  cbv zeta.
  assert (F : Forall (fun c => context2d c = true)
                (firstn 2 [{| context2d := true; encodes := true |}]))
    by (repeat constructor).
  split; [exact F |].
  destruct (downloadMultipleTickets_downloads
              [ {| bookingId := lit "RT-ABC123"; guestName := lit "Test User";
                   ticketType := vip; row := lit "A"; seatNumber := 1;
                   eventName := lit "Cinema Event 2026";
                   eventDate := lit "3/15/2026"; ticketPrice := lit "500" |};
                {| bookingId := lit "RT-ABC123"; guestName := lit "Test User";
                   ticketType := vip; row := lit "A"; seatNumber := 2;
                   eventName := lit "Cinema Event 2026";
                   eventDate := lit "3/15/2026"; ticketPrice := lit "500" |} ]
              {| canvases := [{| context2d := true; encodes := true |}];
                 events := [] |} F) as (b' & R & N & _).
  exists b'. split; [exact R |]. rewrite N. vm_compute. reflexivity.
Defined.

End TicketFacts.

(** ** The seat picker *)

Section PickerFacts.
Import SeatPicker.

Lemma SeatRef_eqb_eq (a b : SeatRef.t) : SeatRef.eqb a b = true <-> a = b.
Proof.
  unfold SeatRef.eqb. rewrite andb_true_iff, bool_decide_eq_true, Z.eqb_eq.
  destruct a, b; simpl. split.
  - intros [-> ->]. reflexivity.
  - intros E. injection E as -> ->. auto.
Qed.

Lemma findIndex_negative {A} (p : A -> bool) (l : list A) :
  findIndex p l < 0 -> Forall (fun x => p x = false) l.
Proof.
  induction l as [| a l IH]; simpl; [constructor |].
  destruct (p a) eqn:E; [lia |].
  destruct (findIndex p l <? 0) eqn:C; [| apply Z.ltb_ge in C; lia].
  intros _. constructor; [exact E |]. apply IH. now apply Z.ltb_lt.
Qed.

(** [splice] at the index [findIndex] found takes out the first element
    that satisfies the test. *)
Lemma findIndex_delete {A} (p : A -> bool) (l : list A) :
  0 <= findIndex p l ->
  exists l1 x l2,
    l = l1 ++ x :: l2
    /\ p x = true
    /\ delete (Z.to_nat (findIndex p l)) l = l1 ++ l2.
Proof.
  induction l as [| a l IH]; simpl; [lia |].
  destruct (p a) eqn:E.
  - intros _. exists [], a, l. auto.
  - destruct (findIndex p l <? 0) eqn:C; [lia |].
    apply Z.ltb_ge in C. intros _.
    destruct (IH C) as (l1 & x & l2 & -> & Hx & D).
    exists (a :: l1), x, l2. repeat split; trivial.
    replace (Z.to_nat (findIndex p (l1 ++ x :: l2) + 1))
      with (S (Z.to_nat (findIndex p (l1 ++ x :: l2)))) by lia.
    simpl. now rewrite D.
Qed.

Lemma toggle_invariant props selected seat :
  picker_invariant props selected ->
  picker_invariant props (toggle props selected seat).
Proof.
  intros (F & N & L). unfold toggle.
  destruct (bool_decide (seatKey seat ∈ available props)) eqn:B;
    [now repeat split |].
  apply bool_decide_eq_false_1 in B.
  destruct (findIndex (fun s => SeatRef.eqb s seat) selected >=? 0) eqn:I.
  - apply Z.geb_le in I.
    destruct (findIndex_delete _ _ I) as (l1 & x & l2 & E & _ & ->).
    subst selected. repeat split.
    + apply Forall_app in F as [F1 F2]. apply Forall_app. split; trivial.
      now inversion F2.
    + apply NoDup_app in N as (N1 & N2 & N3). apply NoDup_app.
      repeat split; trivial.
      * intros y Hy Hy'. apply (N2 y Hy). now right.
      * now inversion N3.
    + rewrite length_app in *. simpl in L. lia.
  - assert (I' : findIndex (fun s => SeatRef.eqb s seat) selected < 0).
    { destruct (Z.geb_spec (findIndex (fun s => SeatRef.eqb s seat) selected) 0);
        [discriminate | lia]. }
    destruct (Z.of_nat (List.length selected) <? quantity props) eqn:Q;
      [| now repeat split].
    apply Z.ltb_lt in Q. repeat split.
    + apply Forall_app. split; [exact F | now repeat constructor].
    + apply NoDup_app. repeat split; trivial.
      * intros y Hy Hy'. apply list_elem_of_singleton in Hy'. subst y.
        apply findIndex_negative in I'.
        rewrite Forall_forall in I'. specialize (I' seat Hy).
        now rewrite (proj2 (SeatRef_eqb_eq seat seat) eq_refl) in I'.
      * apply NoDup_singleton.
    + rewrite length_app. simpl. lia.
Qed.

Lemma clicks_invariant props seats selected :
  picker_invariant props selected ->
  picker_invariant props (fold_left (toggle props) seats selected).
Proof.
  revert selected. induction seats as [| s seats IH]; simpl; intros sel H.
  - exact H.
  - apply IH. now apply toggle_invariant.
Qed.

Lemma toggle_taken props selected seat :
  seatKey seat ∈ available props -> toggle props selected seat = selected.
Proof. intros B. unfold toggle. now rewrite bool_decide_eq_true_2. Qed.

Lemma toggle_selected props selected seat :
  picker_invariant props selected ->
  seat ∈ selected ->
  (seat ∉ toggle props selected seat)
  /\ (forall other, other <> seat ->
        (other ∈ toggle props selected seat <-> other ∈ selected)).
Proof.
  intros (F & N & _) Hs. unfold toggle.
  rewrite Forall_forall in F.
  rewrite bool_decide_eq_false_2 by (apply F, Hs). cbv beta iota zeta.
  destruct (findIndex (fun s => SeatRef.eqb s seat) selected >=? 0) eqn:I.
  - apply Z.geb_le in I.
    destruct (findIndex_delete _ _ I) as (l1 & x & l2 & E & Hx & ->).
    apply SeatRef_eqb_eq in Hx. subst x. rewrite E in N.
    apply NoDup_app in N as (N1 & N2 & N3).
    apply NoDup_cons in N3 as [N3 N4].
    split.
    + rewrite elem_of_app. intros [H | H]; [| contradiction].
      apply (N2 seat H). now left.
    + intros other Ho. rewrite E, !elem_of_app, elem_of_cons.
      split; [tauto |]. intros [H | [H | H]]; tauto.
  - exfalso.
    destruct (Z.geb_spec (findIndex (fun s => SeatRef.eqb s seat) selected) 0)
      as [| I']; [discriminate |].
    apply findIndex_negative in I'. rewrite Forall_forall in I'.
    specialize (I' seat Hs).
    now rewrite (proj2 (SeatRef_eqb_eq seat seat) eq_refl) in I'.
Qed.

(** C10, as the code has it.  After any sequence of clicks the selection
    holds no taken seat, no seat twice, and no more seats than the
    requested quantity, or none when that quantity is negative.  A click
    on a taken seat leaves the selection as it is; a click on a selected
    seat takes that seat out and keeps the others. *)
Theorem toggle_invariants (props : Props) (seats : list SeatRef.t) :
  let selected := clicks props seats in
  Forall (fun s => seatKey s ∉ available props) selected
  /\ NoDup selected
  /\ Z.of_nat (List.length selected) <= Z.max 0 (quantity props)
  /\ (forall seat, seatKey seat ∈ available props ->
                   toggle props selected seat = selected)
  /\ (forall seat, seat ∈ selected ->
                   (seat ∉ toggle props selected seat)
                   /\ (forall other, other <> seat ->
                         (other ∈ toggle props selected seat <-> other ∈ selected))).
Proof.
  cbv zeta. unfold clicks.
  assert (H : picker_invariant props (fold_left (toggle props) seats [])).
  { apply clicks_invariant.
    repeat split; [constructor | constructor | simpl; lia]. }
  pose proof H as (F & N & L).
  split; [exact F |]. split; [exact N |]. split; [exact L |]. split.
  - intros seat. apply toggle_taken.
  - intros seat. now apply toggle_selected.
Qed.

(** C10 fails as stated: with a requested quantity of -1 the selection,
    empty as it stays, is larger than the quantity. *)
Lemma toggle_negative_quantity :
  let props := {| available := ∅; quantity := -1 |} in
  clicks props [Examples.ref "A" 1] = []
  /\ quantity props < Z.of_nat (List.length (clicks props [Examples.ref "A" 1])).
Proof. cbv zeta. split; [vm_compute; reflexivity | vm_compute; reflexivity]. Qed.

End PickerFacts.

(** * More of the booking service *)

Section BookedSeatsFacts.
Import BookingService.

(** [getBookedSeats] always returns and never throws, and leaves the store
    as it was.  When its request fails it returns the empty sequence;
    otherwise it returns the (row, number) of exactly the seats of the
    tier whose availability flag is false, ordered by row and then by
    seat number. *)
Theorem getBookedSeats_contract (tier : TheaterType) (w : World) :
  exists (w' : World) (booked : list SeatRef.t),
    getBookedSeats tier w = (w', Returned booked)
    /\ store w' = store w
    /\ match network w with
       | Some e :: _ => booked = []
       | _ =>
           exists rows : list Seat.t,
             booked = List.map row_seat_number rows
             /\ Permutation rows
                  (List.filter
                     (fun s => theater_eqb (Seat.theater_type s) tier
                               && negb (Seat.is_available s))
                     (theater_seats (store w)))
             /\ StronglySorted Spec.row_then_number rows
       end.
Proof.
  rewrite getBookedSeats_run.
  assert (P : Permutation
                (snd (select_theater_seats tier (Some false) (store w)))
                (List.filter
                   (fun s => theater_eqb (Seat.theater_type s) tier
                             && negb (Seat.is_available s))
                   (theater_seats (store w)))).
  { rewrite select_theater_seats_perm.
    erewrite filter_ext; [reflexivity |].
    intros s. cbv beta.
    now destruct (Seat.is_available s), (theater_eqb _ _). }
  pose proof (select_theater_seats_sorted tier (Some false) (store w)) as S.
  destruct (network w) as [| [e |] rest]; eexists _, _;
    (split; [reflexivity |]); (split; [reflexivity |]);
    [exists (snd (select_theater_seats tier (Some false) (store w))); auto
    | reflexivity
    | exists (snd (select_theater_seats tier (Some false) (store w))); auto].
Qed.

Lemma filter_split {A} (t a : A -> bool) (l : list A) :
  Permutation
    (List.filter (fun x => t x && a x) l
     ++ List.filter (fun x => t x && negb (a x)) l)
    (List.filter t l).
Proof.
  induction l as [| x l IH]; simpl; [constructor |].
  destruct (t x), (a x); simpl; trivial.
  - now constructor.
  - rewrite <- Permutation_middle. now constructor.
Qed.

(** The two readers split the seats of a tier between them: when both
    reads of one state of the store succeed, the available seats and the
    booked seats together are the seats of the tier, each once for each
    row the store holds; so their numbers add up to the number of seats
    of the tier. *)
Theorem available_booked_cover (tier : TheaterType) (w1 w2 : World) :
  store w1 = store w2 ->
  request_succeeds w1 = true ->
  request_succeeds w2 = true ->
  exists (w1' w2' : World) (avail : list Seat.t) (booked : list SeatRef.t),
    getAvailableSeats tier w1 = (w1', Returned avail)
    /\ getBookedSeats tier w2 = (w2', Returned booked)
    /\ Permutation
         (List.map row_seat_number avail ++ booked)
         (List.map row_seat_number
            (List.filter (fun s => theater_eqb (Seat.theater_type s) tier)
               (theater_seats (store w1))))
    /\ (List.length avail + List.length booked
        = List.length
            (List.filter (fun s => theater_eqb (Seat.theater_type s) tier)
               (theater_seats (store w1))))%nat.
Proof.
  intros E R1 R2. unfold request_succeeds in R1, R2.
  rewrite getAvailableSeats_run, getBookedSeats_run.
  assert (P : Permutation
                (snd (select_theater_seats tier (Some true) (store w1))
                 ++ snd (select_theater_seats tier (Some false) (store w2)))
                (List.filter (fun s => theater_eqb (Seat.theater_type s) tier)
                   (theater_seats (store w1)))).
  { rewrite !select_theater_seats_perm, <- E.
    rewrite <- (filter_split (fun s => theater_eqb (Seat.theater_type s) tier)
                  Seat.is_available).
    apply Permutation_app; (erewrite filter_ext; [reflexivity |]);
      intros s; cbv beta; now destruct (Seat.is_available s), (theater_eqb _ _). }
  assert (Q : Permutation
                (List.map row_seat_number
                   (snd (select_theater_seats tier (Some true) (store w1)))
                 ++ List.map row_seat_number
                      (snd (select_theater_seats tier (Some false) (store w2))))
                (List.map row_seat_number
                   (List.filter (fun s => theater_eqb (Seat.theater_type s) tier)
                      (theater_seats (store w1)))))
    by (rewrite <- map_app; now apply Permutation_map).
  assert (L : (List.length
                 (snd (select_theater_seats tier (Some true) (store w1)))
               + List.length
                   (List.map row_seat_number
                      (snd (select_theater_seats tier (Some false) (store w2))))
               = List.length
                   (List.filter (fun s => theater_eqb (Seat.theater_type s) tier)
                      (theater_seats (store w1))))%nat)
    by (rewrite length_map, <- length_app; now apply Permutation_length).
  destruct (network w1) as [| [e1 |] rest1]; try discriminate;
    destruct (network w2) as [| [e2 |] rest2]; try discriminate;
    eexists _, _, _, _; (split; [reflexivity |]); (split; [reflexivity |]);
    split; assumption.
Qed.

Lemma available_booked_cover_witness :
  exists (w1' w2' : World) (avail : list Seat.t) (booked : list SeatRef.t),
    getAvailableSeats vip (Examples.online (Examples.seeded 2))
      = (w1', Returned avail)
    /\ getBookedSeats vip (Examples.online (Examples.seeded 2))
       = (w2', Returned booked)
    /\ (List.length avail + List.length booked = 23)%nat.
Proof.
  destruct (available_booked_cover vip
              (Examples.online (Examples.seeded 2))
              (Examples.online (Examples.seeded 2)) eq_refl eq_refl eq_refl)
    as (w1' & w2' & avail & booked & Ha & Hb & _ & L).
  exists w1', w2', avail, booked. split; [exact Ha |]. split; [exact Hb |].
  rewrite L. vm_compute. reflexivity.
Defined.

End BookedSeatsFacts.

Section SeatLayoutFacts.
Import BookingService.

Lemma getSeatLayout_run tier w :
  getSeatLayout tier w =
  let layout :=
    fold_left count_seat
      (List.map row_seat_number
         (snd (select_theater_seats tier None (store w)))) ∅ in
  match network w with
  | Some e :: rest =>
      ({| store := store w; network := rest;
          console := console w
                       ++ [(lit "[v0] Error fetching seat layout:", e)] |},
       Returned ∅)
  | None :: rest =>
      ({| store := store w; network := rest; console := console w |},
       Returned layout)
  | [] =>
      ({| store := store w; network := []; console := console w |},
       Returned layout)
  end.
Proof.
  unfold getSeatLayout, try_catch, bind, request.
  destruct (network w) as [| [e |] rest]; reflexivity.
Qed.

(** The loop never makes a key [__proto__]. *)
Lemma layout_fold_proto (data : list SeatRef.t) (m : JSObject.t) :
  fold_left count_seat data m !! lit "__proto__" = m !! lit "__proto__".
Proof.
  revert m. induction data as [| seat data IH]; intros m; simpl; [reflexivity |].
  rewrite IH. unfold count_seat, JSObject.set.
  destruct (bool_decide_reflect (SeatRef.row seat = lit "__proto__")) as [E | N];
    [reflexivity |].
  apply lookup_insert_ne. exact N.
Qed.

(** What the loop of [getSeatLayout] computes for a row. *)
Lemma layout_fold (data : list SeatRef.t) (m : JSObject.t) (r : jstring) :
  r <> lit "__proto__" ->
  fold_left count_seat data m !! r
  = row_entry (bool_decide (r ∈ JSObject.prototype_names)) (m !! r)
      (List.map SeatRef.seat_number
         (List.filter (fun seat => bool_decide (SeatRef.row seat = r)) data)).
Proof.
  intros P. revert m.
  induction data as [| seat data IH]; intros m; simpl; [reflexivity |].
  rewrite IH. unfold count_seat, JSObject.set.
  destruct (bool_decide_reflect (SeatRef.row seat = r)) as [E | N].
  - subst r.
    rewrite (bool_decide_eq_false_2 (SeatRef.row seat = lit "__proto__") P).
    rewrite lookup_insert_eq. simpl. unfold JSObject.get.
    destruct (m !! SeatRef.row seat); reflexivity.
  - destruct (bool_decide (SeatRef.row seat = lit "__proto__"));
      [reflexivity |].
    now rewrite lookup_insert_ne by exact N.
Qed.

Lemma row_entry_Int (b : bool) (z : Z) (ns : list Z) :
  row_entry b (Some (JSObject.Int z)) ns
  = Some (JSObject.Int (fold_left Z.max ns z)).
Proof.
  revert z. induction ns as [| n ns IH]; intros z; [reflexivity |].
  unfold row_entry in *. simpl. apply IH.
Qed.

Lemma fold_max_spec (ns : list Z) (z : Z) :
  z <= fold_left Z.max ns z
  /\ Forall (fun n => n <= fold_left Z.max ns z) ns
  /\ (fold_left Z.max ns z = z \/ In (fold_left Z.max ns z) ns).
Proof.
  revert z. induction ns as [| n ns IH]; intros z; simpl.
  - repeat split; [lia | constructor | now left].
  - destruct (IH (Z.max z n)) as (A & B & C). split; [lia |]. split.
    + constructor; [lia | exact B].
    + destruct C as [C | C]; [| auto]. rewrite C.
      destruct (Z.max_spec z n) as [[_ ->] | [_ ->]]; auto.
Qed.

(** The entry of a row whose seat numbers come in ascending order: none
    without a seat; [NaN] for the one seat of a row named like a member of
    Object.prototype, whose member the first seat meets; otherwise the
    largest seat number, or 0 when none is positive. *)
Lemma row_entry_spec (b : bool) (ns : list Z) :
  StronglySorted Z.le ns ->
  (row_entry b None ns = None <-> ns = [])
  /\ (row_entry b None ns = Some JSObject.NaN
      <-> b = true /\ exists n, ns = [n])
  /\ (forall v, row_entry b None ns = Some (JSObject.Int v) ->
        0 <= v
        /\ Forall (fun n => n <= v) ns
        /\ (v = 0 \/ In v ns)).
Proof.
  intros S. destruct ns as [| n1 ns].
  { repeat split; try discriminate.
    intros [_ [n H]]. discriminate. }
  destruct b.
  - (* the first seat meets the inherited member *)
    destruct ns as [| n2 ns].
    { split; [split; discriminate |]. split; [| discriminate].
      split; [eauto | reflexivity]. }
    assert (E : row_entry true None (n1 :: n2 :: ns)
                = Some (JSObject.Int (fold_left Z.max ns (Z.max 0 n2)))).
    { exact (row_entry_Int true (Z.max 0 n2) ns). }
    rewrite E.
    split; [split; discriminate |]. split.
    { split; [discriminate | intros [_ [n H]]; discriminate]. }
    intros v [= <-].
    destruct (fold_max_spec ns (Z.max 0 n2)) as (A & B & C).
    apply StronglySorted_inv in S as [S F]. inversion F as [| ? ? L _]; subst.
    split; [lia |]. split.
    + constructor; [lia |]. constructor; [lia | exact B].
    + destruct C as [C | C]; [| right; right; right; exact C].
      rewrite C. destruct (Z.max_spec 0 n2) as [[_ ->] | [_ ->]]; simpl; auto.
  - assert (E : row_entry false None (n1 :: ns)
                = Some (JSObject.Int (fold_left Z.max ns (Z.max 0 n1)))).
    { exact (row_entry_Int false (Z.max 0 n1) ns). }
    rewrite E.
    split; [split; discriminate |]. split.
    { split; [discriminate | intros [H _]; discriminate]. }
    intros v [= <-].
    destruct (fold_max_spec ns (Z.max 0 n1)) as (A & B & C).
    split; [lia |]. split.
    + constructor; [lia | exact B].
    + destruct C as [C | C]; [| right; right; exact C].
      rewrite C. destruct (Z.max_spec 0 n1) as [[_ ->] | [_ ->]]; simpl; auto.
Qed.

Lemma filter_filter {A} (f g : A -> bool) (l : list A) :
  List.filter f (List.filter g l) = List.filter (fun x => g x && f x) l.
Proof.
  induction l as [| x l IH]; simpl; [reflexivity |].
  destruct (g x); simpl; [destruct (f x) |]; now rewrite IH.
Qed.

Lemma Permutation_List_filter {A} (f : A -> bool) (l l' : list A) :
  Permutation l l' -> Permutation (List.filter f l) (List.filter f l').
Proof.
  induction 1 as [| x l l' _ IH | x y l | l1 l2 l3 _ IH1 _ IH2]; simpl.
  - constructor.
  - destruct (f x); [now constructor | exact IH].
  - destruct (f x), (f y); try reflexivity. apply perm_swap.
  - now transitivity (List.filter f l2).
Qed.

(** The seats of one row come in the order of their numbers. *)
Lemma row_numbers_sorted (r : jstring) (data : list Seat.t) :
  StronglySorted Spec.row_then_number data ->
  StronglySorted Z.le
    (List.map Seat.seat_number
       (List.filter (fun s => bool_decide (Seat.row s = r)) data)).
Proof.
  induction 1 as [| a l _ IH F]; simpl; [constructor |].
  destruct (bool_decide_reflect (Seat.row a = r)) as [E | N]; [| exact IH].
  simpl. constructor; [exact IH |].
  apply Forall_forall. intros n Hn.
  apply list_elem_of_In, in_map_iff in Hn as (s & <- & Hs).
  apply filter_In in Hs as [Hs Er]. apply bool_decide_eq_true in Er.
  apply list_elem_of_In in Hs.
  rewrite Forall_forall in F. destruct (F s Hs) as [L | [_ L]]; [| exact L].
  exfalso. rewrite Er, <- E in L. apply compare_lt_lex in L.
  assert (Q : JS.compare (Seat.row a) (Seat.row a) = Eq) by now apply compare_eq.
  congruence.
Qed.

(** [getSeatLayout] always returns and never throws, and leaves the store
    as it was; when its request fails it returns the empty layout.
    Otherwise the object it returns never has a key [__proto__], and for
    any other row name it has a key exactly when the tier has a seat in
    the row.  The entry of a row is [NaN] exactly when the row is named
    like a member of Object.prototype and has one seat; an entry that is a
    number is a bound on the seat numbers of the row: no seat of the row
    has a larger number, and the bound is the number of one of its seats,
    or 0 when none is positive. *)
Theorem getSeatLayout_bounds (tier : TheaterType) (w : World) :
  exists (w' : World) (layout : JSObject.t),
    getSeatLayout tier w = (w', Returned layout)
    /\ store w' = store w
    /\ match network w with
       | Some e :: _ => layout = ∅
       | _ =>
           layout !! lit "__proto__" = None
           /\ forall r : jstring,
                r <> lit "__proto__" ->
                let seats :=
                  List.filter
                    (fun s => theater_eqb (Seat.theater_type s) tier
                              && bool_decide (Seat.row s = r))
                    (theater_seats (store w)) in
                (layout !! r = None <-> seats = [])
                /\ (layout !! r = Some JSObject.NaN
                    <-> r ∈ JSObject.prototype_names
                        /\ exists s, seats = [s])
                /\ (forall n, layout !! r = Some (JSObject.Int n) ->
                      0 <= n
                      /\ Forall (fun s => Seat.seat_number s <= n) seats
                      /\ (n = 0
                          \/ exists s, In s seats /\ Seat.seat_number s = n))
       end.
Proof.
  rewrite getSeatLayout_run. cbv zeta.
  set (data := snd (select_theater_seats tier None (store w))).
  assert (G : fold_left count_seat (List.map row_seat_number data) ∅
                !! lit "__proto__" = None
              /\ forall r : jstring,
                   r <> lit "__proto__" ->
                   let seats :=
                     List.filter
                       (fun s => theater_eqb (Seat.theater_type s) tier
                                 && bool_decide (Seat.row s = r))
                       (theater_seats (store w)) in
                   let layout :=
                     fold_left count_seat (List.map row_seat_number data) ∅ in
                   (layout !! r = None <-> seats = [])
                   /\ (layout !! r = Some JSObject.NaN
                       <-> r ∈ JSObject.prototype_names
                           /\ exists s, seats = [s])
                   /\ (forall n, layout !! r = Some (JSObject.Int n) ->
                         0 <= n
                         /\ Forall (fun s => Seat.seat_number s <= n) seats
                         /\ (n = 0
                             \/ exists s, In s seats
                                          /\ Seat.seat_number s = n))).
  { split; [now rewrite layout_fold_proto |].
    intros r P. cbv zeta.
    rewrite (layout_fold _ _ r P), lookup_empty.
    set (rowdata := List.filter (fun s => bool_decide (Seat.row s = r)) data).
    assert (N : List.map SeatRef.seat_number
                  (List.filter (fun seat => bool_decide (SeatRef.row seat = r))
                     (List.map row_seat_number data))
                = List.map Seat.seat_number rowdata).
    { subst rowdata. clear. induction data as [| s l IH]; simpl; [reflexivity |].
      destruct (bool_decide (Seat.row s = r)); simpl; now rewrite IH. }
    rewrite N.
    assert (Q : Permutation rowdata
                  (List.filter
                     (fun s => theater_eqb (Seat.theater_type s) tier
                               && bool_decide (Seat.row s = r))
                     (theater_seats (store w)))).
    { subst rowdata data.
      rewrite (Permutation_List_filter _ _ _
                 (select_theater_seats_perm tier None (store w))).
      rewrite filter_filter.
      erewrite filter_ext; [reflexivity |].
      intros s. cbv beta. now rewrite andb_true_r. }
    destruct (row_entry_spec (bool_decide (r ∈ JSObject.prototype_names))
                (List.map Seat.seat_number rowdata))
      as (S1 & S2 & S3).
    { apply row_numbers_sorted, select_theater_seats_sorted. }
    split; [| split].
    - rewrite S1. split.
      + intros H. apply map_eq_nil in H. rewrite H in Q.
        now apply Permutation_nil in Q.
      + intros H. rewrite H in Q. apply Permutation_sym, Permutation_nil in Q.
        now rewrite Q.
    - rewrite S2, bool_decide_eq_true. split; intros [H1 [x H2]];
        (split; [exact H1 |]).
      + destruct rowdata as [| s [| s' l]]; try discriminate.
        exists s. now apply Permutation_length_1_inv in Q.
      + rewrite H2 in Q. apply Permutation_sym, Permutation_length_1_inv in Q.
        rewrite Q. simpl. eauto.
    - intros n H. destruct (S3 n H) as (A & B & C). split; [exact A |]. split.
      + rewrite <- Q. apply List.Forall_forall. intros s Hs.
        rewrite List.Forall_forall in B. apply B. now apply in_map.
      + destruct C as [C | C]; [now left |]. right.
        apply in_map_iff in C as (s & Es & Hs). exists s. split; [| exact Es].
        now apply (Permutation_in _ Q). }
  destruct (network w) as [| [e |] rest]; eexists _, _;
    (split; [reflexivity |]); (split; [reflexivity |]);
    [exact G | reflexivity | exact G].
Qed.

End SeatLayoutFacts.

Section ServiceTraceFacts.
Import BookingService ServiceCalls.

Variable generate_id : Store -> jstring.
Variable not_single : PostgrestError.

(** The store a call of [createBooking] leaves: that of the last step it
    completed. *)
Lemma createBooking_store bd w :
  let st := store w in
  let booking := snd (insert_booking generate_id bd st) in
  let st1 := fst (insert_booking generate_id bd st) in
  let st2 := fst (insert_booking_seats (bookingSeatsData booking bd) st1) in
  let st3 := fst (update_unavailable_in (seatIds bd) st2) in
  let st' := store (fst (createBooking generate_id bd w)) in
  st' = st \/ st' = st1 \/ st' = st2 \/ st' = st3.
Proof.
  cbv zeta.
  unfold createBooking, try_catch, bind, request, throw, ret, console_error.
  destruct (network w) as [| [e1 |] [| [e2 |] [| [e3 |] rest]]]; simpl; auto.
Qed.

Lemma getBooking_store bookingId w :
  store (fst (getBooking not_single bookingId w)) = store w.
Proof.
  unfold getBooking, try_catch, bind, request, throw, ret, console_error,
    select_bookings, single.
  destruct (network w) as [| [e1 |] [| [e2 |] rest]]; simpl; trivial;
    destruct (List.filter _ (bookings (store w))) as [| b [| b' l]];
    simpl; trivial.
Qed.

Lemma evolves_refl st : evolves st st.
Proof.
  repeat split.
  - apply Forall2_same_length_lookup_2; [reflexivity |].
    intros i s s' H1 H2. congruence.
  - exists []. now rewrite app_nil_r.
  - exists []. now rewrite app_nil_r.
Qed.

Lemma evolves_trans st1 st2 st3 :
  evolves st1 st2 -> evolves st2 st3 -> evolves st1 st3.
Proof.
  intros (A1 & A2 & [k1 A3] & [c1 A4]) (B1 & B2 & [k2 B3] & [c2 B4]).
  repeat split.
  - congruence.
  - eapply Forall2_trans; [| exact A2 | exact B2]. simpl. auto.
  - exists (k1 ++ k2). rewrite B3, A3. now rewrite app_assoc.
  - exists (c1 ++ c2). rewrite B4, A4. now rewrite app_assoc.
Qed.

Lemma update_unavailable_in_evolves ids st :
  evolves st (fst (update_unavailable_in ids st)).
Proof.
  repeat split; simpl.
  - rewrite map_map. apply map_ext. intros s.
    now destruct (bool_decide (Seat.id s ∈ ids)).
  - induction (theater_seats st) as [| s l IH]; simpl; constructor; trivial.
    now destruct (bool_decide (Seat.id s ∈ ids)).
  - exists []. now rewrite app_nil_r.
  - exists []. now rewrite app_nil_r.
Qed.

Lemma insert_booking_evolves bd st :
  evolves st (fst (insert_booking generate_id bd st)).
Proof.
  destruct (evolves_refl st) as (A & B & _ & D).
  repeat split; simpl; eauto.
Qed.

Lemma insert_booking_seats_evolves rows st :
  evolves st (fst (insert_booking_seats rows st)).
Proof.
  destruct (evolves_refl st) as (A & B & C & _).
  repeat split; simpl; eauto.
Qed.

Lemma perform_evolves w c :
  evolves (store w) (store (perform generate_id not_single w c)).
Proof.
  destruct c as [t | t | t | bd | i]; simpl.
  - rewrite getAvailableSeats_run.
    destruct (network w) as [| [e |] rest]; apply evolves_refl.
  - rewrite getSeatLayout_run.
    destruct (network w) as [| [e |] rest]; apply evolves_refl.
  - rewrite getBookedSeats_run.
    destruct (network w) as [| [e |] rest]; apply evolves_refl.
  - pose proof (createBooking_store bd w) as H. cbv zeta in H.
    destruct H as [-> | [-> | [-> | ->]]].
    + apply evolves_refl.
    + apply insert_booking_evolves.
    + eapply evolves_trans;
        [apply insert_booking_evolves | apply insert_booking_seats_evolves].
    + eapply evolves_trans; [apply insert_booking_evolves |].
      eapply evolves_trans;
        [apply insert_booking_seats_evolves | apply update_unavailable_in_evolves].
  - rewrite getBooking_store. apply evolves_refl.
Qed.

(** No sequence of calls to the service, whatever each call answers,
    adds, removes or renames a seat, makes an unavailable seat available
    again, or removes or alters a booking or a seat claim: bookings and
    claims are only ever added. *)
Theorem service_never_releases (calls : list Call) (w : World) :
  evolves (store w)
    (store (fold_left (perform generate_id not_single) calls w)).
Proof.
  revert w. induction calls as [| c calls IH]; intros w; simpl.
  - apply evolves_refl.
  - eapply evolves_trans; [apply perform_evolves | apply IH].
Qed.

End ServiceTraceFacts.

Section RepeatedBookingFacts.
Import BookingService.

Variable generate_id : Store -> jstring.

(** When none of its requests fails, [createBooking] returns, whatever the
    store holds. *)
Lemma createBooking_online bd w :
  Forall (fun fate => fate = None) (network w) ->
  let booking := snd (insert_booking generate_id bd (store w)) in
  createBooking generate_id bd w
  = ({| store :=
          fst (update_unavailable_in (seatIds bd)
                 (fst (insert_booking_seats (bookingSeatsData booking bd)
                         (fst (insert_booking generate_id bd (store w))))));
        network := skipn 3 (network w);
        console := console w |}, Returned booking).
Proof.
  intros F. cbv zeta.
  unfold createBooking, try_catch, bind, request, throw, ret, console_error.
  destruct (network w) as [| o1 [| o2 [| o3 rest]]]; simpl;
    repeat match goal with
      | H : Forall _ (_ :: _) |- _ => inversion H; subst; clear H
      end; reflexivity.
Qed.

Lemma update_unavailable_in_twice ids st :
  theater_seats
    (fst (update_unavailable_in ids (fst (update_unavailable_in ids st))))
  = theater_seats (fst (update_unavailable_in ids st)).
Proof.
  simpl. rewrite map_map. apply map_ext. intros s.
  destruct (bool_decide (Seat.id s ∈ ids)) eqn:E; simpl; rewrite E; reflexivity.
Qed.

(** [createBooking] does not look at the seats it is given: when no request
    fails it returns whatever the store holds, also for seats that are
    already unavailable or claimed.  Two calls with the same data both
    return; the second leaves the seats as the first left them and adds a
    second booking with claims of its own for the same seats. *)
Theorem createBooking_twice (bd : BookingData.t) (w : World) :
  Forall (fun fate => fate = None) (network w) ->
  exists (w1 w2 : World) (b1 b2 : Booking.t),
    createBooking generate_id bd w = (w1, Returned b1)
    /\ createBooking generate_id bd w1 = (w2, Returned b2)
    /\ theater_seats (store w2) = theater_seats (store w1)
    /\ bookings (store w2) = bookings (store w) ++ [b1; b2]
    /\ booking_seats (store w2)
       = booking_seats (store w) ++ bookingSeatsData b1 bd
           ++ bookingSeatsData b2 bd
    /\ List.map (fun c => (BookingSeat.row c, BookingSeat.seat_number c))
         (bookingSeatsData b1 bd)
       = List.map (fun c => (BookingSeat.row c, BookingSeat.seat_number c))
           (bookingSeatsData b2 bd).
Proof.
  intros F.
  pose proof (createBooking_online bd w F) as H1. cbv zeta in H1.
  eexists _, _, _, _. split; [exact H1 |].
  split.
  - apply createBooking_online. simpl.
    rewrite <- (firstn_skipn 3 (network w)) in F.
    now apply Forall_app in F as [_ F].
  - cbv zeta. simpl. split; [| split; [| split]].
    + rewrite !map_map. apply map_ext. intros s.
      destruct (bool_decide (Seat.id s ∈ seatIds bd)) eqn:E; simpl;
        rewrite E; reflexivity.
    + now rewrite <- app_assoc.
    + now rewrite <- app_assoc.
    + unfold bookingSeatsData. rewrite !map_map. reflexivity.
Qed.

End RepeatedBookingFacts.

Section RepeatedBookingWitness.
Import BookingService.

Lemma createBooking_twice_witness :
  Forall (fun fate : option PostgrestError => fate = None)
    (network (Examples.online (Examples.seeded 0)))
  /\ exists (w1 w2 : World) (b1 b2 : Booking.t),
       createBooking Examples.generate_id
         (Examples.bookingData [Examples.ref "A" 1])
         (Examples.online (Examples.seeded 0)) = (w1, Returned b1)
       /\ createBooking Examples.generate_id
            (Examples.bookingData [Examples.ref "A" 1]) w1 = (w2, Returned b2)
       /\ List.length (booking_seats (store w2)) = 2%nat.
Proof.
  assert (F : Forall (fun fate : option PostgrestError => fate = None)
                (network (Examples.online (Examples.seeded 0))))
    by constructor.
  split; [exact F |].
  destruct (createBooking_twice Examples.generate_id
              (Examples.bookingData [Examples.ref "A" 1])
              (Examples.online (Examples.seeded 0)) F)
    as (w1 & w2 & b1 & b2 & H1 & H2 & _ & _ & H3 & _).
  exists w1, w2, b1, b2. split; [exact H1 |]. split; [exact H2 |].
  rewrite H3. reflexivity.
Defined.

End RepeatedBookingWitness.

Section GetBookingFacts.
Import BookingService.

Variable generate_id : Store -> jstring.
Variable not_single : PostgrestError.

#[local] Instance claim_order_total : Total claim_order.
Proof.
  intros a b. unfold claim_order.
  rewrite (compare_antisym (BookingSeat.row a) (BookingSeat.row b)).
  destruct (JS.compare _ _); simpl; auto.
  destruct (Z.le_ge_cases (BookingSeat.seat_number a)
              (BookingSeat.seat_number b)); auto.
Qed.

#[local] Instance claim_order_trans : Transitive claim_order.
Proof.
  intros a b c. unfold claim_order.
  intros [H1 | [H1 L1]] [H2 | [H2 L2]].
  - left. eapply compare_trans; eauto.
  - left. apply compare_eq in H2. now rewrite <- H2.
  - left. apply compare_eq in H1. now rewrite H1.
  - right. split; [eapply compare_trans; eauto | lia].
Qed.

Lemma select_booking_seats_sorted bookingId st :
  StronglySorted Spec.claims_row_then_number
    (snd (select_booking_seats bookingId st)).
Proof.
  simpl.
  assert (H : StronglySorted claim_order
                (merge_sort claim_order
                   (List.filter
                      (fun c => bool_decide (BookingSeat.booking_id c = bookingId))
                      (booking_seats st))))
    by (apply StronglySorted_merge_sort; apply _).
  induction H as [| x l _ IH F]; constructor; trivial.
  eapply Forall_impl; [exact F |]. intros y.
  unfold claim_order, Spec.claims_row_then_number.
  now rewrite compare_lt_lex, compare_eq.
Qed.

Lemma select_booking_seats_perm bookingId st :
  Permutation
    (snd (select_booking_seats bookingId st))
    (List.filter (fun c => bool_decide (BookingSeat.booking_id c = bookingId))
       (booking_seats st)).
Proof. simpl. apply merge_sort_Permutation. Qed.

(** [getBooking] always returns and never throws, and leaves the store as
    it was.  It answers [null] when its first request fails, when the store
    holds no booking with the id or more than one, and when its second
    request fails.  Otherwise it answers the one booking with that id,
    together with exactly the seat claims that carry the id, ordered by
    row and then by seat number. *)
Theorem getBooking_contract (bookingId : jstring) (w : World) :
  exists (w' : World) (r : option BookingDetails.t),
    getBooking not_single bookingId w = (w', Returned r)
    /\ store w' = store w
    /\ match network w with
       | Some _ :: _ => r = None
       | _ =>
           match List.filter (fun b => bool_decide (Booking.id b = bookingId))
                   (bookings (store w)) with
           | [b] =>
               match tl (network w) with
               | Some _ :: _ => r = None
               | _ =>
                   exists seats : list BookingSeat.t,
                     r = Some {| BookingDetails.booking := b;
                                 BookingDetails.seats := seats |}
                     /\ Permutation seats
                          (List.filter
                             (fun c => bool_decide
                                         (BookingSeat.booking_id c = bookingId))
                             (booking_seats (store w)))
                     /\ StronglySorted Spec.claims_row_then_number seats
               end
           | _ => r = None
           end
       end.
Proof.
  pose proof (select_booking_seats_perm bookingId (store w)) as P.
  pose proof (select_booking_seats_sorted bookingId (store w)) as S.
  unfold getBooking, try_catch, bind, request, throw, ret, console_error,
    select_bookings, single.
  destruct (network w) as [| [e1 |] [| [e2 |] rest]]; simpl;
    try (eexists _, _; repeat split; fail);
    destruct (List.filter _ (bookings (store w))) as [| b [| b' l]]; simpl;
    eexists _, _; (split; [reflexivity |]); (split; [reflexivity |]);
    try reflexivity;
    exists (snd (select_booking_seats bookingId (store w))); auto.
Qed.

(** The answer of [getBooking] when no request fails and one booking has
    the id. *)
Lemma getBooking_online bookingId w b :
  Forall (fun fate => fate = None) (network w) ->
  List.filter (fun x => bool_decide (Booking.id x = bookingId))
    (bookings (store w)) = [b] ->
  getBooking not_single bookingId w
  = ({| store := store w; network := skipn 2 (network w);
        console := console w |},
     Returned (Some {| BookingDetails.booking := b;
                       BookingDetails.seats :=
                         snd (select_booking_seats bookingId (store w)) |})).
Proof.
  intros F B.
  unfold getBooking, try_catch, bind, request, throw, ret, console_error,
    select_bookings, single.
  destruct (network w) as [| o1 [| o2 rest]]; simpl; rewrite B; simpl;
    repeat match goal with
      | H : Forall _ (_ :: _) |- _ => inversion H; subst; clear H
      end; reflexivity.
Qed.

Lemma createBooking_tables bd w w' booking :
  createBooking generate_id bd w = (w', Returned booking) ->
  bookings (store w') = bookings (store w) ++ [booking]
  /\ booking_seats (store w')
     = booking_seats (store w) ++ bookingSeatsData booking bd
  /\ Booking.total_seats booking
     = Z.of_nat (List.length (BookingData.seats bd)).
Proof.
  intros H. apply createBooking_Returned in H as [Hb Hs].
  rewrite Hs. subst booking. simpl. auto.
Qed.

(** A booking that [createBooking] returned under an id no earlier booking
    or claim carries is read back by [getBooking] when no request fails:
    the same booking row, with its seat claims, one for each seat that was
    booked, so as many as the row's [total_seats]. *)
Theorem createBooking_getBooking (bd : BookingData.t) (w w' later : World)
    (booking : Booking.t) :
  createBooking generate_id bd w = (w', Returned booking) ->
  Forall (fun b => Booking.id b <> Booking.id booking) (bookings (store w)) ->
  Forall (fun c => BookingSeat.booking_id c <> Booking.id booking)
    (booking_seats (store w)) ->
  store later = store w' ->
  Forall (fun fate => fate = None) (network later) ->
  exists (later' : World) (seats : list BookingSeat.t),
    getBooking not_single (Booking.id booking) later
    = (later', Returned (Some {| BookingDetails.booking := booking;
                                 BookingDetails.seats := seats |}))
    /\ Permutation seats (bookingSeatsData booking bd)
    /\ StronglySorted Spec.claims_row_then_number seats
    /\ Z.of_nat (List.length seats) = Booking.total_seats booking.
Proof.
  intros H Fb Fc El Fn.
  destruct (createBooking_tables bd w w' booking H) as (Eb & Ec & T).
  assert (B : List.filter
                (fun b => bool_decide (Booking.id b = Booking.id booking))
                (bookings (store later)) = [booking]).
  { rewrite El, Eb. rewrite List.filter_app, filter_none.
    - simpl. now rewrite bool_decide_eq_true_2.
    - eapply Forall_impl; [exact Fb |]. intros b Nb.
      now apply bool_decide_eq_false_2. }
  assert (K : List.filter
                (fun c => bool_decide (BookingSeat.booking_id c = Booking.id booking))
                (booking_seats (store later)) = bookingSeatsData booking bd).
  { rewrite El, Ec. rewrite List.filter_app, filter_none, filter_all.
    - reflexivity.
    - apply Forall_forall. intros c Hc.
      apply list_elem_of_In, in_map_iff in Hc as (s & <- & _).
      now apply bool_decide_eq_true_2.
    - eapply Forall_impl; [exact Fc |]. intros c Nc.
      now apply bool_decide_eq_false_2. }
  pose proof (select_booking_seats_perm (Booking.id booking) (store later)) as P.
  rewrite K in P.
  eexists _, _. split; [exact (getBooking_online _ _ _ Fn B) |].
  split; [exact P |].
  split; [apply select_booking_seats_sorted |].
  rewrite T, (Permutation_length P). unfold bookingSeatsData.
  now rewrite length_map.
Qed.

End GetBookingFacts.

Section GetBookingWitness.
Import BookingService.

Lemma createBooking_getBooking_witness :
  exists (w' later' : World) (booking : Booking.t) (seats : list BookingSeat.t),
    createBooking Examples.generate_id
      (Examples.bookingData [Examples.ref "B" 2; Examples.ref "A" 1])
      (Examples.online (Examples.seeded 0)) = (w', Returned booking)
    /\ getBooking Examples.offline (Booking.id booking)
         (Examples.online (store w'))
       = (later', Returned (Some {| BookingDetails.booking := booking;
                                    BookingDetails.seats := seats |}))
    /\ List.map (fun c => (BookingSeat.row c, BookingSeat.seat_number c)) seats
       = [(lit "A", 1); (lit "B", 2)].
Proof.
  assert (H : createBooking Examples.generate_id
                (Examples.bookingData [Examples.ref "B" 2; Examples.ref "A" 1])
                (Examples.online (Examples.seeded 0))
              = (fst (createBooking Examples.generate_id
                        (Examples.bookingData
                           [Examples.ref "B" 2; Examples.ref "A" 1])
                        (Examples.online (Examples.seeded 0))),
                 Returned (snd (insert_booking Examples.generate_id
                                  (Examples.bookingData
                                     [Examples.ref "B" 2; Examples.ref "A" 1])
                                  (Examples.seeded 0)))))
    by reflexivity.
  destruct (createBooking_getBooking Examples.generate_id Examples.offline
              _ _ _ (Examples.online (store (fst (createBooking
                        Examples.generate_id
                        (Examples.bookingData
                           [Examples.ref "B" 2; Examples.ref "A" 1])
                        (Examples.online (Examples.seeded 0)))))) _ H)
    as (later' & seats & G & _ & _ & _).
  - constructor.
  - constructor.
  - reflexivity.
  - constructor.
  - eexists _, later', _, seats. split; [exact H |]. split; [exact G |].
    vm_compute in G. injection G as _ <-. reflexivity.
Defined.

End GetBookingWitness.

(** * More of the form validation *)

Section EmailFacts.
Import Regex.

Lemma Matches_Star_Class p s :
  Matches (Star (Class p)) s <-> Forall (fun c => p c = true) s.
Proof.
  split.
  - intros H. remember (Star (Class p)) as r eqn:E.
    induction H as [ | | | | | | r0 s1 s2 H1 _ H2 IH2 ]; try discriminate.
    + constructor.
    + injection E as ->. inversion H1; subst. simpl. constructor; auto.
  - induction 1 as [| c s Hc _ IH].
    + constructor.
    + change (c :: s) with ([c] ++ s). constructor; [now constructor | exact IH].
Qed.

Lemma Matches_Plus_Class p s :
  Matches (Plus (Class p)) s <-> s <> [] /\ Forall (fun c => p c = true) s.
Proof.
  unfold Plus. split.
  - inversion 1 as [ | | ? ? s1 s2 Ha Hb | | | | ]; subst.
    inversion Ha; subst. apply Matches_Star_Class in Hb.
    split; [discriminate | now constructor].
  - intros [N F]. destruct s as [| c s]; [contradiction |].
    inversion F; subst. change (c :: s) with ([c] ++ s).
    constructor; [now constructor | now apply Matches_Star_Class].
Qed.

Lemma not_space_or_at_plain c :
  Patterns.not_space_or_at c = true <-> Spec.plain c.
Proof.
  unfold Patterns.not_space_or_at, Spec.plain.
  rewrite negb_true_iff, orb_false_iff, N.eqb_neq. reflexivity.
Qed.

Lemma Matches_plain_run s :
  Matches (Plus (Class Patterns.not_space_or_at)) s
  <-> s <> [] /\ Forall Spec.plain s.
Proof.
  rewrite Matches_Plus_Class. split; intros [N F]; (split; [exact N |]);
    (eapply Forall_impl; [exact F |]); intros c; apply not_space_or_at_plain.
Qed.

(** The email pattern accepts exactly the shape [local@domain.tld]. *)
Lemma email_pattern_shape s :
  test Patterns.email s = true <-> Spec.email_shape s.
Proof.
  rewrite test_Matches. unfold Patterns.email, Spec.email_shape. split.
  - inversion 1 as [ | | ? ? l s1 Hl H1 | | | | ]; subst.
    inversion H1 as [ | | ? ? a s2 Ha H2 | | | | ]; subst.
    inversion H2 as [ | | ? ? d s3 Hd H3 | | | | ]; subst.
    inversion H3 as [ | | ? ? o t Ho Ht | | | | ]; subst.
    apply Matches_Chr in Ha, Ho. subst.
    apply Matches_plain_run in Hl as [Nl Fl], Hd as [Nd Fd], Ht as [Nt Ft].
    exists l, d, t. repeat split; trivial.
  - intros (l & d & t & -> & Nl & Nd & Nt & Fl & Fd & Ft).
    constructor; [now apply Matches_plain_run |].
    constructor; [now apply Matches_Chr |].
    constructor; [now apply Matches_plain_run |].
    constructor; [now apply Matches_Chr | now apply Matches_plain_run].
Qed.

Lemma count_plain l :
  Forall Spec.plain l -> count_occ N.eq_dec l 64%N = 0%nat.
Proof.
  induction 1 as [| c l [_ Hc] _ IH]; simpl; trivial.
  destruct (N.eq_dec c 64%N); [contradiction | exact IH].
Qed.

Lemma validate_v2_email (f : BookingFlowV2.FormData) :
  BookingFlowV2.validate f !! lit "email"
  = if truthy (BookingFlowV2.email f)
       && negb (test Patterns.email (BookingFlowV2.email f))
    then Some (lit "email") else None.
Proof.
  unfold BookingFlowV2.validate.
  destruct (strlen _ <? 2), (negb (test Patterns.phone _)),
    (truthy _ && _), (_ || _); vm_compute; reflexivity.
Qed.

(** The wizard accepts an email (leaves [errors.email] unset) exactly when
    it is empty or has the shape [local@domain.tld], each of the three
    parts being non-empty and free of white space and of [@].  An
    accepted email that is not empty therefore holds no white space and
    exactly one [@]. *)
Theorem email_validation (f : BookingFlowV2.FormData) :
  (BookingFlowV2.validate f !! lit "email" = None
   <-> BookingFlowV2.email f = []
       \/ Spec.email_shape (BookingFlowV2.email f))
  /\ (BookingFlowV2.validate f !! lit "email" = None ->
      BookingFlowV2.email f <> [] ->
      Forall (fun c => is_whitespace c = false) (BookingFlowV2.email f)
      /\ count_occ N.eq_dec (BookingFlowV2.email f) 64%N = 1%nat).
Proof.
  assert (A : BookingFlowV2.validate f !! lit "email" = None
              <-> BookingFlowV2.email f = []
                  \/ Spec.email_shape (BookingFlowV2.email f)).
  { rewrite validate_v2_email, <- email_pattern_shape.
    destruct (BookingFlowV2.email f) as [| c s]; cbn [truthy andb]; [tauto |].
    destruct (test Patterns.email (c :: s)); cbn [negb].
    - split; auto.
    - split; [discriminate | intros [H | H]; discriminate]. }
  split; [exact A |].
  intros H N. apply A in H as [H | (l & d & t & E & _ & _ & _ & Fl & Fd & Ft)];
    [contradiction |].
  rewrite E. split.
  - repeat (apply Forall_app; split);
      try (eapply Forall_impl; [eassumption |]; now intros c [Hc _]);
      repeat constructor.
  - rewrite !count_occ_app.
    rewrite (count_plain l Fl), (count_plain d Fd), (count_plain t Ft).
    reflexivity.
Qed.

End EmailFacts.

Section AcceptanceFacts.




End AcceptanceFacts.

(** * The barcode of a ticket *)

Section BarcodeFacts.
Import TicketGenerator.

Lemma bars_of_length c : (8 <= List.length (bars_of c))%nat.
Proof.
  unfold bars_of, padStart8. rewrite length_map, length_app, repeat_length. lia.
Qed.

(** A code unit below 256 makes exactly eight bars, which read back as
    the code unit. *)
Lemma bars_of_byte c :
  (c < 256)%N ->
  List.length (bars_of c) = 8%nat /\ bars_value (bars_of c) 0%N = c.
Proof.
  intros H.
  assert (A : forallb
                (fun n =>
                   let c := N.of_nat n in
                   (List.length (bars_of c) =? 8)%nat
                   && (bars_value (bars_of c) 0 =? c)%N)
                (seq 0 256) = true) by (vm_compute; reflexivity).
  rewrite forallb_forall in A.
  specialize (A (N.to_nat c)). rewrite N2Nat.id in A. cbv zeta in A.
  assert (I : In (N.to_nat c) (seq 0 256)) by (apply in_seq; lia).
  apply A, andb_true_iff in I as [I1 I2].
  apply Nat.eqb_eq in I1. apply N.eqb_eq in I2. auto.
Qed.

Lemma read_bars_encode (data : jstring) :
  Forall (fun c => (c < 256)%N) data ->
  forall groups, (List.length data <= groups)%nat ->
    read_bars groups (flat_map bars_of data) = data.
Proof.
  induction 1 as [| c data Hc _ IH]; intros groups L.
  - destruct groups; reflexivity.
  - destruct groups as [| groups]; [simpl in L; lia |].
    destruct (bars_of_byte c Hc) as [E V].
    cbn [flat_map read_bars].
    destruct (bars_of c ++ flat_map bars_of data) as [| b bs] eqn:D.
    + apply (f_equal (@List.length N)) in D. rewrite length_app in D.
      simpl in D. lia.
    + rewrite <- D.
      rewrite firstn_app, E, Nat.sub_diag, firstn_O, app_nil_r.
      rewrite <- E at 1. rewrite firstn_all, V.
      rewrite skipn_app, E, Nat.sub_diag, skipn_O.
      rewrite <- E at 1. rewrite skipn_all. simpl.
      f_equal. apply IH. simpl in L. lia.
Qed.

(** The barcode encoding can be read back: when the booking id and the row
    hold only code units below 256, the barcode of a ticket has eight bars
    for each code unit of [`${bookingId}-${row}${seatNumber}`], and reading
    the bars gives that string back; so tickets with different data have
    different barcodes. *)
Theorem generateTicketBarcode_reads_back (bookingId row : jstring)
    (seatNumber : Z) :
  Forall (fun c => (c < 256)%N) bookingId ->
  Forall (fun c => (c < 256)%N) row ->
  List.length (generateTicketBarcode bookingId row seatNumber)
  = (8 * List.length (barcodeData bookingId row seatNumber))%nat
  /\ read_barcode (generateTicketBarcode bookingId row seatNumber)
     = barcodeData bookingId row seatNumber.
Proof.
  intros Fb Fr.
  assert (F : Forall (fun c => (c < 256)%N)
                (barcodeData bookingId row seatNumber)).
  { unfold barcodeData. repeat (apply Forall_app; split); trivial.
    - repeat constructor.
    - unfold Number_toString, lit. apply Forall_forall. intros c Hc.
      apply list_elem_of_In, in_map_iff in Hc as (a & <- & _).
      apply N_ascii_bounded. }
  assert (L : List.length (generateTicketBarcode bookingId row seatNumber)
              = (8 * List.length (barcodeData bookingId row seatNumber))%nat).
  { unfold generateTicketBarcode. fold bars_of.
    induction F as [| c l Hc _ IH]; simpl; [reflexivity |].
    rewrite length_app, IH. destruct (bars_of_byte c Hc) as [-> _]. lia. }
  split; [exact L |].
  unfold read_barcode. apply read_bars_encode; [exact F |].
  fold (generateTicketBarcode bookingId row seatNumber). rewrite L. lia.
Qed.

Lemma generateTicketBarcode_reads_back_witness :
  read_barcode (generateTicketBarcode (lit "RT-ABC123") (lit "A") 12)
  = lit "RT-ABC123-A12".
Proof.
  apply (generateTicketBarcode_reads_back (lit "RT-ABC123") (lit "A") 12).
  - repeat constructor.
  - repeat constructor.
Defined.

(** The barcode text painted on a ticket is the same for every seat of a
    booking whose id has seven code units or more: its 50 bars are taken
    from the bars of the booking id alone. *)
Theorem barcodeText_of_booking (t1 t2 : TicketInfo) :
  bookingId t1 = bookingId t2 ->
  (7 <= List.length (bookingId t1))%nat ->
  barcodeText t1 = barcodeText t2.
Proof.
  intros E L.
  assert (P : forall i r n,
             (7 <= List.length i)%nat ->
             firstn 50 (generateTicketBarcode i r n)
             = firstn 50 (flat_map bars_of i)).
  { intros i r n Li. unfold generateTicketBarcode, barcodeData. fold bars_of.
    rewrite flat_map_app, firstn_app.
    assert (B : (56 <= List.length (flat_map bars_of i))%nat).
    { clear -Li. revert Li.
      assert (G : forall l, (8 * List.length l
                             <= List.length (flat_map bars_of l))%nat).
      { induction l as [| c l IH]; simpl; [lia |].
        rewrite length_app. pose proof (bars_of_length c). lia. }
      intros Li. specialize (G i). lia. }
    replace (50 - List.length (flat_map bars_of i))%nat with 0%nat by lia.
    now rewrite firstn_O, app_nil_r. }
  unfold barcodeText. rewrite (P _ _ _ L).
  rewrite E in L. rewrite (P _ _ _ L). now rewrite E.
Qed.

Lemma barcodeText_of_booking_witness :
  let ticket r n :=
    {| bookingId := lit "RT-ABC123"; guestName := lit "Test User";
       ticketType := vip; row := lit r; seatNumber := n;
       eventName := lit "Cinema Event 2026"; eventDate := lit "3/15/2026";
       ticketPrice := lit "500" |} in
  barcodeText (ticket "A" 1) = barcodeText (ticket "C" 8).
Proof.
  cbv zeta. apply barcodeText_of_booking; [reflexivity | simpl; lia].
Defined.

End BarcodeFacts.

(** * More of the seat picker *)

Section DoubleClickFacts.
Import SeatPicker.

Lemma findIndex_last {A} (p : A -> bool) (l : list A) (y : A) :
  Forall (fun x => p x = false) l -> p y = true ->
  findIndex p (l ++ [y]) = Z.of_nat (List.length l).
Proof.
  intros F Hy. induction F as [| x l Hx _ IH]; simpl.
  - now rewrite Hy.
  - rewrite Hx, IH.
    destruct (Z.ltb_spec (Z.of_nat (List.length l)) 0); lia.
Qed.

Lemma delete_last {A} (l : list A) (y : A) :
  delete (List.length l) (l ++ [y]) = l.
Proof. induction l as [| x l IH]; simpl; [reflexivity | now rewrite IH]. Qed.

Lemma findIndex_absent (selected : list SeatRef.t) (seat : SeatRef.t) :
  seat ∉ selected ->
  Forall (fun s => SeatRef.eqb s seat = false) selected.
Proof.
  intros N. apply Forall_forall. intros s Hs.
  destruct (SeatRef.eqb s seat) eqn:E; [| reflexivity].
  apply SeatRef_eqb_eq in E. subst s. contradiction.
Qed.

Lemma findIndex_absent_negative (selected : list SeatRef.t) (seat : SeatRef.t) :
  seat ∉ selected ->
  (findIndex (fun s => SeatRef.eqb s seat) selected >=? 0) = false.
Proof.
  intros N. apply findIndex_absent in N.
  induction N as [| x l Hx _ IH]; simpl; [reflexivity |].
  rewrite Hx.
  destruct (Z.geb_spec (findIndex (fun s => SeatRef.eqb s seat) l) 0);
    [discriminate |].
  destruct (Z.ltb_spec (findIndex (fun s => SeatRef.eqb s seat) l) 0);
    [reflexivity | lia].
Qed.

(** A click on a seat that is neither taken nor selected appends it when
    there is room, and changes nothing when there is none. *)
Lemma toggle_absent props selected seat :
  seatKey seat ∉ available props ->
  seat ∉ selected ->
  toggle props selected seat
  = if Z.of_nat (List.length selected) <? quantity props
    then selected ++ [seat] else selected.
Proof.
  intros B N. unfold toggle.
  rewrite bool_decide_eq_false_2 by exact B. cbv beta iota zeta.
  now rewrite (findIndex_absent_negative selected seat N).
Qed.

(** A click on a selected seat takes out its one occurrence. *)
Lemma toggle_present props selected seat :
  picker_invariant props selected ->
  seat ∈ selected ->
  exists l1 l2,
    selected = l1 ++ seat :: l2 /\ toggle props selected seat = l1 ++ l2.
Proof.
  intros (F & _ & _) Hs. unfold toggle.
  rewrite Forall_forall in F.
  rewrite bool_decide_eq_false_2 by (apply F, Hs). cbv beta iota zeta.
  destruct (findIndex (fun s => SeatRef.eqb s seat) selected >=? 0) eqn:I.
  - apply Z.geb_le in I.
    destruct (findIndex_delete _ _ I) as (l1 & x & l2 & E & Hx & ->).
    apply SeatRef_eqb_eq in Hx. subst x. eauto.
  - exfalso.
    destruct (Z.geb_spec (findIndex (fun s => SeatRef.eqb s seat) selected) 0)
      as [| I']; [discriminate |].
    apply findIndex_negative in I'. rewrite Forall_forall in I'.
    specialize (I' seat Hs).
    now rewrite (proj2 (SeatRef_eqb_eq seat seat) eq_refl) in I'.
Qed.

Lemma toggle_twice props selected seat :
  picker_invariant props selected ->
  Permutation (toggle props (toggle props selected seat) seat) selected
  /\ (seat ∉ selected ->
      toggle props (toggle props selected seat) seat = selected).
Proof.
  intros Inv. pose proof Inv as (F & N & L).
  destruct (decide (seatKey seat ∈ available props)) as [B | B].
  { rewrite !(toggle_taken props _ seat B). auto. }
  destruct (decide (seat ∈ selected)) as [Hs | Hs].
  - split; [| contradiction].
    destruct (toggle_present props selected seat Inv Hs) as (l1 & l2 & E & ->).
    assert (Nl : seat ∉ l1 ++ l2).
    { rewrite E in N. apply NoDup_app in N as (_ & N2 & N3).
      apply NoDup_cons in N3 as [N3 _]. rewrite elem_of_app.
      intros [H | H]; [| contradiction]. apply (N2 seat H). now left. }
    rewrite (toggle_absent props _ seat B Nl).
    assert (R : (Z.of_nat (List.length (l1 ++ l2)) <? quantity props) = true).
    { apply Z.ltb_lt. rewrite E in L. rewrite length_app in *. simpl in L. lia. }
    rewrite R, E.
    etransitivity; [apply Permutation_app_comm |].
    simpl. apply Permutation_middle.
  - rewrite (toggle_absent props selected seat B Hs).
    destruct (Z.of_nat (List.length selected) <? quantity props) eqn:R.
    + assert (T : toggle props (selected ++ [seat]) seat = selected).
      { unfold toggle. rewrite bool_decide_eq_false_2 by exact B.
        cbv beta iota zeta.
        rewrite (findIndex_last _ selected seat (findIndex_absent _ _ Hs)
                   (proj2 (SeatRef_eqb_eq seat seat) eq_refl)).
        replace (Z.of_nat (List.length selected) >=? 0) with true
          by (symmetry; apply Z.geb_le; lia).
        rewrite Nat2Z.id. apply delete_last. }
      rewrite T. auto.
    + rewrite (toggle_absent props selected seat B Hs), R. auto.
Qed.

(** Two clicks on the same seat leave the selection holding the same
    seats, whatever the seat: nothing changes for a taken seat or when
    there is no room; a seat that was not selected is added and taken out
    again, which restores the selection exactly; a seat that was selected
    is taken out and added again at the end. *)
Theorem toggle_double_click (props : Props) (seats : list SeatRef.t)
    (seat : SeatRef.t) :
  let selected := clicks props seats in
  Permutation (toggle props (toggle props selected seat) seat) selected
  /\ (seat ∉ selected ->
      toggle props (toggle props selected seat) seat = selected)
  /\ (seat ∉ selected -> seatKey seat ∉ available props ->
      toggle props selected seat
      = if Z.of_nat (List.length selected) <? quantity props
        then selected ++ [seat] else selected).
Proof.
  cbv zeta. unfold clicks.
  assert (H : picker_invariant props (fold_left (toggle props) seats [])).
  { apply clicks_invariant.
    repeat split; [constructor | constructor | simpl; lia]. }
  destruct (toggle_twice props _ seat H) as [P E].
  split; [exact P |]. split; [exact E |].
  intros N B. now apply toggle_absent.
Qed.

End DoubleClickFacts.

(** * The wizard and the booked seats *)

Section LoadFacts.
Import BookingService BookingFlowV2.

Lemma loadBookedSeats_run type w s :
  snd (loadBookedSeats type w s)
  = let booked := match network w with
                  | Some _ :: _ => []
                  | _ => List.map row_seat_number
                           (snd (select_theater_seats type (Some false) (store w)))
                  end in
    let bookedSet : gset jstring :=
      list_to_set (List.map SeatPicker.seatKey booked) in
    {| formData := formData s;
       selectedSeats := selectedSeats s;
       bookedSeats := bookedSet;
       maxQuantity :=
         Z.min (SeatLayout.totalSeats (SeatLayout.seatLayout type)
                - Z.of_nat (size bookedSet)) 10;
       isLoading := false |}.
Proof.
  unfold loadBookedSeats. rewrite getBookedSeats_run.
  destruct (network w) as [| [e |] rest]; reflexivity.
Qed.

Lemma SeatPicker_toggle_empty (q : Z) (seat : SeatRef.t) :
  1 <= q ->
  SeatPicker.toggle
    {| SeatPicker.available := ∅; SeatPicker.quantity := q |} [] seat
  = [seat].
Proof.
  intros Hq. unfold SeatPicker.toggle.
  rewrite bool_decide_eq_false_2 by apply not_elem_of_empty.
  simpl. change (Z.of_nat 0) with 0.
  replace (0 <? q) with true; [reflexivity |].
  symmetry. apply Z.ltb_lt. lia.
Qed.

(** A seat that the store holds as unavailable for the tier when
    [loadBookedSeats] reads it without failure cannot be selected in the
    picker that is given the loaded set: no sequence of clicks puts it in
    the selection. *)
Theorem booked_seat_not_selectable (type : TheaterType) (w : World)
    (s : State) (q : Z) (seats : list SeatRef.t) (seat : Seat.t) :
  request_succeeds w = true ->
  In seat (theater_seats (store w)) ->
  Seat.theater_type seat = type ->
  Seat.is_available seat = false ->
  row_seat_number seat
  ∉ SeatPicker.clicks
      {| SeatPicker.available := bookedSeats (snd (loadBookedSeats type w s));
         SeatPicker.quantity := q |} seats.
Proof.
  intros R Hs Ht Ha Hc.
  assert (K : SeatPicker.seatKey (row_seat_number seat)
              ∈ bookedSeats (snd (loadBookedSeats type w s))).
  { rewrite loadBookedSeats_run. cbv zeta. simpl.
    apply elem_of_list_to_set, list_elem_of_In, in_map.
    unfold request_succeeds in R.
    assert (I : In (row_seat_number seat)
                  (List.map row_seat_number
                     (snd (select_theater_seats type (Some false) (store w)))))
      by (apply in_map, select_theater_seats_In; auto).
    destruct (network w) as [| [e |] rest]; [exact I | discriminate | exact I]. }
  destruct (clicks_invariant
              {| SeatPicker.available :=
                   bookedSeats (snd (loadBookedSeats type w s));
                 SeatPicker.quantity := q |} seats [])
    as (F & _ & _).
  { repeat split; [constructor | constructor | simpl; lia]. }
  rewrite Forall_forall in F. exact (F _ Hc K).
Qed.

Lemma booked_seat_not_selectable_witness :
  request_succeeds (Examples.online (Examples.seeded 2)) = true
  /\ In (Examples.seat vip (Examples.ref "A" 2) false)
       (theater_seats (Examples.seeded 2))
  /\ Examples.ref "A" 2
     ∉ SeatPicker.clicks
         {| SeatPicker.available :=
              bookedSeats (snd (loadBookedSeats vip
                                  (Examples.online (Examples.seeded 2)) initial));
            SeatPicker.quantity := 2 |}
         [Examples.ref "A" 2; Examples.ref "A" 3].
Proof.
  assert (I : In (Examples.seat vip (Examples.ref "A" 2) false)
                (theater_seats (Examples.seeded 2)))
    by (vm_compute; auto).
  split; [reflexivity |]. split; [exact I |].
  exact (booked_seat_not_selectable vip (Examples.online (Examples.seeded 2))
           initial 2 [Examples.ref "A" 2; Examples.ref "A" 3]
           (Examples.seat vip (Examples.ref "A" 2) false)
           eq_refl I eq_refl eq_refl).
Defined.

(** When the read of the booked seats fails, [loadBookedSeats] leaves the
    wizard as it would for a tier with no booked seat: the booked set is
    empty, the maximum quantity is the smaller of the capacity and 10,
    the spinner is cleared, and the picker lets any seat be selected. *)
Theorem loadBookedSeats_failed_read (type : TheaterType) (w : World)
    (s : State) (e : PostgrestError) (rest : list (option PostgrestError)) :
  network w = Some e :: rest ->
  let s1 := snd (loadBookedSeats type w s) in
  bookedSeats s1 = ∅
  /\ maxQuantity s1
     = Z.min (SeatLayout.totalSeats (SeatLayout.seatLayout type)) 10
  /\ isLoading s1 = false
  /\ forall (q : Z) (seat : SeatRef.t),
       1 <= q ->
       SeatPicker.clicks
         {| SeatPicker.available := bookedSeats s1; SeatPicker.quantity := q |}
         [seat] = [seat].
Proof.
  intros N. cbv zeta. rewrite loadBookedSeats_run, N. cbv zeta. simpl.
  split; [reflexivity |]. split; [now rewrite Z.sub_0_r |].
  split; [reflexivity |].
  intros q seat Hq. unfold SeatPicker.clicks. simpl.
  rewrite SeatPicker_toggle_empty by exact Hq. reflexivity.
Qed.

End LoadFacts.

Section LoadWitnesses.
Import BookingService BookingFlowV2.

Lemma loadBookedSeats_failed_read_witness :
  bookedSeats
    (snd (loadBookedSeats vip
            {| store := Examples.seeded 23;
               network := [Some Examples.offline]; console := [] |}
            initial)) = ∅
  /\ maxQuantity
       (snd (loadBookedSeats vip
               {| store := Examples.seeded 23;
                  network := [Some Examples.offline]; console := [] |}
               initial)) = 10.
Proof.
  destruct (loadBookedSeats_failed_read vip
              {| store := Examples.seeded 23;
                 network := [Some Examples.offline]; console := [] |}
              initial Examples.offline [] eq_refl) as (B & M & _).
  split; [exact B |]. rewrite M. reflexivity.
Defined.

End LoadWitnesses.

Section QuantityAcceptance.
Import BookingService BookingFlowV2.



End QuantityAcceptance.

(** * The keys of the booked seats *)

Section SeatKeyFacts.
Import BookingService BookingFlowV2.

Lemma split_at_separator {A} (x : A) (l1 r1 l2 r2 : list A) :
  ~ In x l1 -> ~ In x l2 ->
  l1 ++ x :: r1 = l2 ++ x :: r2 -> l1 = l2 /\ r1 = r2.
Proof.
  revert l2. induction l1 as [| a l1 IH]; intros [| b l2] N1 N2 E; simpl in *.
  - injection E as ->. auto.
  - injection E as -> _. exfalso. apply N2. now left.
  - injection E as -> _. exfalso. apply N1. now left.
  - injection E as -> E. destruct (IH l2) as [-> ->]; auto.
Qed.

Lemma lit_inj (s1 s2 : string) : lit s1 = lit s2 -> s1 = s2.
Proof.
  unfold lit. intros E.
  rewrite <- (string_of_list_ascii_of_string s1),
    <- (string_of_list_ascii_of_string s2).
  f_equal. revert E.
  generalize (list_ascii_of_string s1) (list_ascii_of_string s2).
  induction l as [| a l IH]; intros [| b k] E; simpl in E; try discriminate.
  - reflexivity.
  - injection E as E1 E2. f_equal; [| now apply IH].
    rewrite <- (ascii_N_embedding a), <- (ascii_N_embedding b). now rewrite E1.
Qed.

Lemma NoDup_List_filter {A} (f : A -> bool) (l : list A) :
  NoDup l -> NoDup (List.filter f l).
Proof.
  induction 1 as [| x l Hx _ IH]; simpl; [constructor |].
  destruct (f x); [| exact IH]. constructor; [| exact IH].
  intros H. apply Hx. apply list_elem_of_In in H. apply filter_In in H as [H _].
  now apply list_elem_of_In.
Qed.

Lemma seatKey_inj (a b : SeatRef.t) :
  ~ In 45%N (SeatRef.row a) ->
  ~ In 45%N (SeatRef.row b) ->
  SeatPicker.seatKey a = SeatPicker.seatKey b ->
  a = b.
Proof.
  intros Na Nb E. unfold SeatPicker.seatKey in E.
  change (lit "-" ++ ?x) with (45%N :: x) in E.
  apply split_at_separator in E as [Er En]; trivial.
  apply lit_inj in En. apply (inj pretty) in En.
  destruct a, b; simpl in *. now subst.
Qed.

(** The keys made of a seat tell seats apart as long as no row name holds
    a hyphen: the key [<row>-<number>] of the wizard and the picker
    determines the seat, and the id [<tier>-<row>-<number>] that
    [createBooking] computes determines the tier and the seat. *)
Theorem seatKey_injective (ta tb : TheaterType) (a b : SeatRef.t) :
  ~ In 45%N (SeatRef.row a) ->
  ~ In 45%N (SeatRef.row b) ->
  (SeatPicker.seatKey a = SeatPicker.seatKey b -> a = b)
  /\ (seatId ta a = seatId tb b -> ta = tb /\ a = b).
Proof.
  intros Na Nb. split; [now apply seatKey_inj |].
  intros E.
  change (seatId ta a) with (theater_name ta ++ 45%N :: SeatPicker.seatKey a)
    in E.
  change (seatId tb b) with (theater_name tb ++ 45%N :: SeatPicker.seatKey b)
    in E.
  apply split_at_separator in E as [Et Ek].
  - split; [| now apply seatKey_inj].
    destruct ta, tb; trivial; discriminate Et.
  - destruct ta; vm_compute; intuition discriminate.
  - destruct tb; vm_compute; intuition discriminate.
Qed.

Lemma seatKey_injective_witness :
  let a := Examples.ref "A" 12 in
  let b := Examples.ref "A" 1 in
  (SeatPicker.seatKey a = SeatPicker.seatKey b -> a = b)
  /\ (seatId vip a = seatId classic b -> vip = classic /\ a = b).
Proof.
  cbv zeta.
  apply (seatKey_injective vip classic (Examples.ref "A" 12)
           (Examples.ref "A" 1)).
  - vm_compute. intros [H | []]. discriminate.
  - vm_compute. intros [H | []]. discriminate.
Defined.

(** When the store identifies each seat by (tier, row, number) and no row
    of the tier has a hyphen in its name, a read of the booked seats that
    does not fail makes the wizard count each booked seat once: the size
    of its booked set is the number of unavailable seats of the tier, and
    the maximum quantity is the smaller of 10 and the number of seats of
    the layout that remain. *)
Theorem loadBookedSeats_counts (type : TheaterType) (w : World) (s : State) :
  request_succeeds w = true ->
  Spec.seats_unique (store w) ->
  (forall seat, In seat (theater_seats (store w)) ->
                Seat.theater_type seat = type -> ~ In 45%N (Seat.row seat)) ->
  let s1 := snd (loadBookedSeats type w s) in
  let booked :=
    List.filter
      (fun seat => theater_eqb (Seat.theater_type seat) type
                   && negb (Seat.is_available seat))
      (theater_seats (store w)) in
  size (bookedSeats s1) = List.length booked
  /\ maxQuantity s1
     = Z.min (SeatLayout.totalSeats (SeatLayout.seatLayout type)
              - Z.of_nat (List.length booked)) 10.
Proof.
  intros R U D. cbv zeta.
  assert (S : size (bookedSeats (snd (loadBookedSeats type w s)))
              = List.length
                  (List.filter
                     (fun seat => theater_eqb (Seat.theater_type seat) type
                                  && negb (Seat.is_available seat))
                     (theater_seats (store w)))).
  { rewrite loadBookedSeats_run. cbv zeta.
    unfold request_succeeds in R.
    assert (P : Permutation
                  (snd (select_theater_seats type (Some false) (store w)))
                  (List.filter
                     (fun seat => theater_eqb (Seat.theater_type seat) type
                                  && negb (Seat.is_available seat))
                     (theater_seats (store w)))).
    { rewrite select_theater_seats_perm.
      erewrite filter_ext; [reflexivity |].
      intros x. cbv beta.
      now destruct (Seat.is_available x), (theater_eqb _ _). }
    assert (E : match network w with
                | Some _ :: _ => []
                | _ => List.map row_seat_number
                         (snd (select_theater_seats type (Some false) (store w)))
                end
                = List.map row_seat_number
                    (snd (select_theater_seats type (Some false) (store w))))
      by (destruct (network w) as [| [e |] rest]; [reflexivity | discriminate
                                                   | reflexivity]).
    rewrite E. cbn [bookedSeats]. rewrite map_map, size_list_to_set.
    - rewrite length_map. now apply Permutation_length.
    - apply (NoDup_fmap_2_strong
               (fun x => SeatPicker.seatKey (row_seat_number x))).
      + intros x y Hx Hy K.
        apply list_elem_of_In, select_theater_seats_In in Hx as (X1 & X2 & _).
        apply list_elem_of_In, select_theater_seats_In in Hy as (Y1 & Y2 & _).
        apply seatKey_inj in K;
          [| simpl; now apply D | simpl; now apply D].
        apply (NoDup_map_injective Spec.seat_identity (theater_seats (store w)));
          trivial.
        unfold Spec.seat_identity. injection K as K1 K2. congruence.
      + rewrite P. apply NoDup_List_filter.
        unfold Spec.seats_unique in U.
        now apply (NoDup_fmap_1 Spec.seat_identity) in U. }
  split; [exact S |].
  rewrite <- S, loadBookedSeats_run. reflexivity.
Qed.

Lemma loadBookedSeats_counts_witness :
  size (bookedSeats
          (snd (loadBookedSeats vip (Examples.online (Examples.seeded 2))
                  initial))) = 2%nat
  /\ maxQuantity
       (snd (loadBookedSeats vip (Examples.online (Examples.seeded 2))
               initial)) = 10.
Proof.
  destruct (loadBookedSeats_counts vip (Examples.online (Examples.seeded 2))
              initial eq_refl seeded_unique) as [S M].
  - intros seat Hs _ H45.
    assert (A : forallb
                  (fun x => negb (existsb (N.eqb 45) (Seat.row x)))
                  (theater_seats (Examples.seeded 2)) = true)
      by (vm_compute; reflexivity).
    rewrite forallb_forall in A. specialize (A seat Hs).
    apply negb_true_iff in A.
    assert (B : existsb (N.eqb 45) (Seat.row seat) = true)
      by (apply existsb_exists; exists 45%N; split;
          [exact H45 | apply N.eqb_refl]).
    congruence.
  - split; [rewrite S | rewrite M]; reflexivity.
Defined.

End SeatKeyFacts.

(** ** The payment handler of the wizard *)

Section PaymentFacts.
Import BookingService.

Variable generate_id : Store -> jstring.

Lemma createBooking_fails bd w :
  Exists (fun fate => fate <> None) (firstn 3 (network w)) ->
  exists w' e,
    createBooking generate_id bd w = (w', Threw e)
    /\ theater_seats (store w') = theater_seats (store w)
    /\ (bookings (store w') = bookings (store w)
        \/ bookings (store w')
           = bookings (store w)
               ++ [snd (insert_booking generate_id bd (store w))]).
Proof.
  unfold createBooking, try_catch, bind, request, throw, ret, console_error.
  destruct (network w) as [| [e1 |] [| [e2 |] [| [e3 |] rest]]]; simpl;
    intros H;
    try (do 2 eexists; split; [reflexivity |]; simpl;
         split; [reflexivity |]; auto; fail);
    repeat match goal with
      | H : Exists _ [] |- _ => inversion H
      | H : Exists _ (firstn 0 _) |- _ => inversion H
      | H : Exists _ (_ :: _) |- _ => inversion H; subst; clear H
      | H : None <> None |- _ => now destruct H
      end.
Qed.

Lemma createBooking_succeeds bd w :
  Forall (fun fate => fate = None) (firstn 3 (network w)) ->
  exists w',
    createBooking generate_id bd w
    = (w', Returned (snd (insert_booking generate_id bd (store w))))
    /\ bookings (store w')
       = bookings (store w) ++ [snd (insert_booking generate_id bd (store w))]
    /\ booking_seats (store w')
       = booking_seats (store w)
           ++ bookingSeatsData (snd (insert_booking generate_id bd (store w))) bd
    /\ console w' = console w.
Proof.
  unfold createBooking, try_catch, bind, request, throw, ret, console_error.
  destruct (network w) as [| o1 [| o2 [| o3 rest]]]; simpl; intros F;
    repeat match goal with
      | H : Forall _ (_ :: _) |- _ => inversion H; subst; clear H
      end; eexists; (split; [reflexivity |]); simpl; auto.
Qed.

Lemma downloadMultipleTickets_run tickets b :
  Forall (fun c => TicketGenerator.context2d c = true)
    (firstn (List.length tickets) (TicketGenerator.canvases b)) ->
  exists evs,
    TicketGenerator.downloadMultipleTickets tickets b
    = ({| TicketGenerator.canvases :=
            skipn (List.length tickets) (TicketGenerator.canvases b);
          TicketGenerator.events := TicketGenerator.events b ++ evs |},
       TicketGenerator.Fulfilled tt)
    /\ List.map fst (TicketGenerator.downloads evs)
       = List.map TicketGenerator.fileName tickets.
Proof.
  revert b. induction tickets as [| t ts IH]; intros [cs evs0] F.
  - exists []. simpl. rewrite app_nil_r. split; reflexivity.
  - simpl in F |- *.
    unfold TicketGenerator.await at 1.
    unfold TicketGenerator.generateIndividualTicket,
      TicketGenerator.new_Promise, TicketGenerator.createCanvas.
    destruct cs as [| c cs]; simpl.
    + destruct (IH {| TicketGenerator.canvases := [];
                      TicketGenerator.events :=
                        (evs0 ++ [TicketGenerator.Download
                                    (TicketGenerator.fileName t)
                                    (TicketGenerator.Png t)])
                          ++ [TicketGenerator.Delay 300] |})
        as (evs & R & N).
      { simpl. rewrite firstn_nil. constructor. }
      simpl in R. rewrite skipn_nil in R.
      unfold TicketGenerator.await, TicketGenerator.click,
        TicketGenerator.sleep. simpl. rewrite R.
      eexists. rewrite <- !app_assoc. split; [reflexivity |].
      unfold TicketGenerator.downloads in *. simpl. now rewrite N.
    + inversion F as [| ? ? Hc F']; subst. rewrite Hc. simpl.
      destruct (IH {| TicketGenerator.canvases := cs;
                      TicketGenerator.events :=
                        (evs0 ++ [TicketGenerator.Download
                                    (TicketGenerator.fileName t)
                                    (if TicketGenerator.encodes c
                                     then TicketGenerator.Png t
                                     else TicketGenerator.EmptyBlob)])
                          ++ [TicketGenerator.Delay 300] |})
        as (evs & R & N); [exact F' |].
      simpl in R.
      unfold TicketGenerator.await, TicketGenerator.click,
        TicketGenerator.sleep. simpl. rewrite R.
      eexists. rewrite <- !app_assoc. split; [reflexivity |].
      unfold TicketGenerator.downloads in *. simpl. now rewrite N.
Qed.

Lemma ticketInfos_fileName today wz :
  List.map TicketGenerator.fileName (BookingFlowV2.ticketInfos today wz)
  = List.map
      (fun seat =>
         lit "Ticket-" ++ BookingFlowV2.bookingId wz ++ lit "-"
           ++ SeatRef.row seat ++ Number_toString (SeatRef.seat_number seat)
           ++ lit ".png")
      (BookingFlowV2.selectedSeats (BookingFlowV2.state wz)).
Proof. unfold BookingFlowV2.ticketInfos. rewrite map_map. reflexivity. Qed.

(** When one of the three requests of [createBooking] fails, the payment
    handler settles with the wizard on the step it was on, the spinner
    cleared and the payment error shown; no ticket is drawn or downloaded,
    the selection is kept, and no seat of the store has changed, though
    the booking row may have been written. *)
Theorem handlePayment_write_failure (p : BookingFlowV2.Page) :
  Exists (fun fate => fate <> None)
    (firstn 3 (network (BookingFlowV2.service p))) ->
  let p' := fst (BookingFlowV2.handlePayment generate_id p) in
  snd (BookingFlowV2.handlePayment generate_id p)
  = TicketGenerator.Fulfilled tt
  /\ BookingFlowV2.step (BookingFlowV2.wizard p')
     = BookingFlowV2.step (BookingFlowV2.wizard p)
  /\ BookingFlowV2.isLoading (BookingFlowV2.state (BookingFlowV2.wizard p'))
     = false
  /\ BookingFlowV2.selectedSeats
       (BookingFlowV2.state (BookingFlowV2.wizard p'))
     = BookingFlowV2.selectedSeats
         (BookingFlowV2.state (BookingFlowV2.wizard p))
  /\ BookingFlowV2.toasts p'
     = BookingFlowV2.toasts p ++ [BookingFlowV2.PaymentError]
  /\ BookingFlowV2.browser p' = BookingFlowV2.browser p
  /\ theater_seats (store (BookingFlowV2.service p'))
     = theater_seats (store (BookingFlowV2.service p))
  /\ exists written,
       bookings (store (BookingFlowV2.service p'))
       = bookings (store (BookingFlowV2.service p)) ++ written
       /\ (List.length written <= 1)%nat.
Proof.
  intros Hx. cbv zeta.
  destruct (createBooking_fails
              (BookingFlowV2.bookingData (BookingFlowV2.wizard p))
              (BookingFlowV2.service p) Hx) as (w' & e & R & Hs & Hb).
  unfold BookingFlowV2.handlePayment. rewrite R. simpl.
  do 6 (split; [reflexivity |]).
  split; [assumption |].
  destruct Hb as [Hb | Hb]; rewrite Hb.
  - exists []. rewrite app_nil_r. auto.
  - eexists [_]. auto.
Qed.

(** When the three requests of [createBooking] succeed but the canvas of
    the first ticket yields no 2D context, the payment handler never
    settles: the booking and its seat claims are in the store, while the
    wizard stays on its step with the spinner on, shows no toast and
    downloads nothing. *)
Theorem handlePayment_stalls (p : BookingFlowV2.Page)
    (canvas : TicketGenerator.Canvas) (rest : list TicketGenerator.Canvas) :
  Forall (fun fate => fate = None)
    (firstn 3 (network (BookingFlowV2.service p))) ->
  BookingFlowV2.selectedSeats (BookingFlowV2.state (BookingFlowV2.wizard p))
  <> [] ->
  TicketGenerator.canvases (BookingFlowV2.browser p) = canvas :: rest ->
  TicketGenerator.context2d canvas = false ->
  let p' := fst (BookingFlowV2.handlePayment generate_id p) in
  snd (BookingFlowV2.handlePayment generate_id p) = TicketGenerator.Pending
  /\ BookingFlowV2.step (BookingFlowV2.wizard p')
     = BookingFlowV2.step (BookingFlowV2.wizard p)
  /\ BookingFlowV2.isLoading (BookingFlowV2.state (BookingFlowV2.wizard p'))
     = true
  /\ BookingFlowV2.toasts p' = BookingFlowV2.toasts p
  /\ TicketGenerator.events (BookingFlowV2.browser p')
     = TicketGenerator.events (BookingFlowV2.browser p)
  /\ exists booking,
       bookings (store (BookingFlowV2.service p'))
       = bookings (store (BookingFlowV2.service p)) ++ [booking]
       /\ Booking.total_seats booking
          = Z.of_nat
              (List.length
                 (BookingFlowV2.selectedSeats
                    (BookingFlowV2.state (BookingFlowV2.wizard p))))
       /\ List.length (booking_seats (store (BookingFlowV2.service p')))
          = (List.length (booking_seats (store (BookingFlowV2.service p)))
             + List.length
                 (BookingFlowV2.selectedSeats
                    (BookingFlowV2.state (BookingFlowV2.wizard p))))%nat.
Proof.
  intros Hn Hs Hc Hx. cbv zeta.
  destruct (createBooking_succeeds
              (BookingFlowV2.bookingData (BookingFlowV2.wizard p))
              (BookingFlowV2.service p) Hn) as (w' & R & Hb & Hbs & _).
  assert (D : TicketGenerator.downloadMultipleTickets
                (BookingFlowV2.ticketInfos (BookingFlowV2.today p)
                   (BookingFlowV2.wizard p)) (BookingFlowV2.browser p)
              = ({| TicketGenerator.canvases := rest;
                    TicketGenerator.events :=
                      TicketGenerator.events (BookingFlowV2.browser p) |},
                 TicketGenerator.Pending)).
  { unfold BookingFlowV2.ticketInfos.
    destruct (BookingFlowV2.selectedSeats
                (BookingFlowV2.state (BookingFlowV2.wizard p)))
      as [| seat seats]; [congruence |].
    simpl. unfold TicketGenerator.await at 1.
    unfold TicketGenerator.generateIndividualTicket,
      TicketGenerator.new_Promise, TicketGenerator.createCanvas.
    rewrite Hc, Hx. reflexivity. }
  unfold BookingFlowV2.handlePayment. rewrite R, D. simpl.
  do 5 (split; [reflexivity |]).
  eexists. split; [exact Hb |]. split.
  - simpl. now rewrite length_map.
  - rewrite Hbs. unfold bookingSeatsData. simpl.
    now rewrite length_app, !length_map.
Qed.

(** When the three requests of [createBooking] succeed and every canvas
    made for a ticket yields a 2D context, the payment handler settles
    with the wizard on the confirmation step, the spinner cleared and the
    success toast shown; one file per selected seat has been downloaded,
    in order, named after the id the wizard made when it opened; and the
    store holds one more booking: the form's name and phone, no email when
    the field was empty, no receipt, and the tier chosen (the second one
    when none was). *)
Theorem handlePayment_success (p : BookingFlowV2.Page) :
  Forall (fun fate => fate = None)
    (firstn 3 (network (BookingFlowV2.service p))) ->
  Forall (fun c => TicketGenerator.context2d c = true)
    (firstn
       (List.length
          (BookingFlowV2.selectedSeats
             (BookingFlowV2.state (BookingFlowV2.wizard p))))
       (TicketGenerator.canvases (BookingFlowV2.browser p))) ->
  let wz := BookingFlowV2.wizard p in
  let form := BookingFlowV2.formData (BookingFlowV2.state wz) in
  let p' := fst (BookingFlowV2.handlePayment generate_id p) in
  snd (BookingFlowV2.handlePayment generate_id p)
  = TicketGenerator.Fulfilled tt
  /\ BookingFlowV2.step (BookingFlowV2.wizard p') = 6
  /\ BookingFlowV2.isLoading (BookingFlowV2.state (BookingFlowV2.wizard p'))
     = false
  /\ BookingFlowV2.toasts p'
     = BookingFlowV2.toasts p ++ [BookingFlowV2.TicketsDownloaded]
  /\ List.map fst
       (TicketGenerator.downloads
          (TicketGenerator.events (BookingFlowV2.browser p')))
     = List.map fst
         (TicketGenerator.downloads
            (TicketGenerator.events (BookingFlowV2.browser p)))
       ++ List.map
            (fun seat =>
               lit "Ticket-" ++ BookingFlowV2.bookingId wz ++ lit "-"
                 ++ SeatRef.row seat
                 ++ Number_toString (SeatRef.seat_number seat)
                 ++ lit ".png")
            (BookingFlowV2.selectedSeats (BookingFlowV2.state wz))
  /\ bookings (store (BookingFlowV2.service p'))
     = bookings (store (BookingFlowV2.service p))
       ++ [ {| Booking.id := generate_id (store (BookingFlowV2.service p));
               Booking.name := BookingFlowV2.name form;
               Booking.phone := BookingFlowV2.phone form;
               Booking.email :=
                 match BookingFlowV2.email form with
                 | [] => None
                 | _ => Some (BookingFlowV2.email form)
                 end;
               Booking.theater_type :=
                 match BookingFlowV2.ticketType wz with
                 | Some t => t
                 | None => classic
                 end;
               Booking.payment_method :=
                 BookingFlowV2.payment_name (BookingFlowV2.paymentMethod wz);
               Booking.receipt_url := None;
               Booking.status := completed;
               Booking.total_seats :=
                 Z.of_nat
                   (List.length
                      (BookingFlowV2.selectedSeats
                         (BookingFlowV2.state wz))) |} ].
Proof.
  intros Hn Hc. cbv zeta.
  destruct (createBooking_succeeds
              (BookingFlowV2.bookingData (BookingFlowV2.wizard p))
              (BookingFlowV2.service p) Hn) as (w' & R & Hb & _ & _).
  destruct (downloadMultipleTickets_run
              (BookingFlowV2.ticketInfos (BookingFlowV2.today p)
                 (BookingFlowV2.wizard p))
              (BookingFlowV2.browser p)) as (evs & D & N).
  { unfold BookingFlowV2.ticketInfos. now rewrite length_map. }
  unfold BookingFlowV2.handlePayment. rewrite R, D. simpl.
  do 4 (split; [reflexivity |]).
  split.
  - unfold TicketGenerator.downloads in *.
    rewrite flat_map_app, map_app, N.
    now rewrite ticketInfos_fileName.
  - rewrite Hb. simpl. rewrite length_map.
    unfold BookingFlowV2.ticketType_or_classic.
    destruct (BookingFlowV2.email _) as [| c s];
      destruct (BookingFlowV2.ticketType _); reflexivity.
Qed.

End PaymentFacts.

Section PaymentWitnesses.
Import BookingService.

Lemma handlePayment_write_failure_witness :
  let p := Examples.page [None; Some Examples.offline] [] in
  let p' := fst (BookingFlowV2.handlePayment Examples.generate_id p) in
  Exists (fun fate => fate <> None)
    (firstn 3 (network (BookingFlowV2.service p)))
  /\ snd (BookingFlowV2.handlePayment Examples.generate_id p)
     = TicketGenerator.Fulfilled tt
  /\ BookingFlowV2.step (BookingFlowV2.wizard p') = 5
  /\ BookingFlowV2.toasts p' = [BookingFlowV2.PaymentError]
  /\ TicketGenerator.events (BookingFlowV2.browser p') = []
  /\ List.length (bookings (store (BookingFlowV2.service p'))) = 1%nat.
Proof.
  cbv zeta.
  assert (Hx : Exists (fun fate : option PostgrestError => fate <> None)
                 (firstn 3 [None; Some Examples.offline]))
    by (right; left; discriminate).
  split; [exact Hx |].
  destruct (handlePayment_write_failure Examples.generate_id
              (Examples.page [None; Some Examples.offline] []) Hx)
    as (H1 & H2 & _ & _ & H5 & H6 & _ & _).
  split; [exact H1 |]. split; [exact H2 |]. split; [exact H5 |].
  split; [now rewrite H6 |]. vm_compute. reflexivity.
Defined.

Lemma handlePayment_stalls_witness :
  let canvas :=
    {| TicketGenerator.context2d := false;
       TicketGenerator.encodes := true |} in
  let p := Examples.page [] [canvas] in
  let p' := fst (BookingFlowV2.handlePayment Examples.generate_id p) in
  Forall (fun fate => fate = None)
    (firstn 3 (network (BookingFlowV2.service p)))
  /\ TicketGenerator.context2d canvas = false
  /\ snd (BookingFlowV2.handlePayment Examples.generate_id p)
     = TicketGenerator.Pending
  /\ BookingFlowV2.isLoading (BookingFlowV2.state (BookingFlowV2.wizard p'))
     = true
  /\ List.length (bookings (store (BookingFlowV2.service p'))) = 1%nat.
Proof.
  cbv zeta.
  assert (Hn : Forall (fun fate : option PostgrestError => fate = None)
                 (firstn 3 (@nil (option PostgrestError))))
    by constructor.
  split; [exact Hn |]. split; [reflexivity |].
  destruct (handlePayment_stalls Examples.generate_id
              (Examples.page []
                 [{| TicketGenerator.context2d := false;
                     TicketGenerator.encodes := true |}])
              {| TicketGenerator.context2d := false;
                 TicketGenerator.encodes := true |} [] Hn
              ltac:(discriminate) eq_refl eq_refl)
    as (H1 & _ & H3 & _ & _ & booking & Hb & _).
  split; [exact H1 |]. split; [exact H3 |]. now rewrite Hb.
Defined.

Lemma handlePayment_success_witness :
  let p := Examples.page [] [] in
  let p' := fst (BookingFlowV2.handlePayment Examples.generate_id p) in
  Forall (fun fate => fate = None)
    (firstn 3 (network (BookingFlowV2.service p)))
  /\ Forall (fun c => TicketGenerator.context2d c = true)
       (firstn 2 (TicketGenerator.canvases (BookingFlowV2.browser p)))
  /\ BookingFlowV2.step (BookingFlowV2.wizard p') = 6
  /\ List.map fst
       (TicketGenerator.downloads
          (TicketGenerator.events (BookingFlowV2.browser p')))
     = [lit "Ticket-RT-ABC123-A1.png"; lit "Ticket-RT-ABC123-A2.png"]
  /\ List.map Booking.id (bookings (store (BookingFlowV2.service p')))
     = [lit "B0"].
Proof.
  cbv zeta.
  assert (Hn : Forall (fun fate : option PostgrestError => fate = None)
                 (firstn 3 (@nil (option PostgrestError))))
    by constructor.
  assert (Hc : Forall (fun c => TicketGenerator.context2d c = true)
                 (firstn 2 (@nil TicketGenerator.Canvas)))
    by constructor.
  split; [exact Hn |]. split; [exact Hc |].
  destruct (handlePayment_success Examples.generate_id
              (Examples.page [] []) Hn Hc)
    as (_ & H2 & _ & _ & H5 & H6).
  split; [exact H2 |]. split.
  - rewrite H5. vm_compute. reflexivity.
  - rewrite H6. vm_compute. reflexivity.
Defined.

End PaymentWitnesses.

(** ** The canvas ticket of the first wizard *)

Section PdfFacts.
Import PdfGenerator.

Lemma barcode_block_length (text : jstring) :
  (9 * List.length text
   <= List.length
        (flat_map
           (fun charCode =>
              flat_map
                (fun digit => if (digit =? 48)%N then lit "|" else lit "::")
                (TicketGenerator.padStart8
                   (TicketGenerator.toString2 charCode))
                ++ lit " ")
           text))%nat.
Proof.
  induction text as [| c text IH]; simpl; [lia |].
  rewrite !length_app. simpl.
  assert (D : (8 <= List.length
                      (TicketGenerator.padStart8
                         (TicketGenerator.toString2 c)))%nat).
  { unfold TicketGenerator.padStart8. rewrite length_app, repeat_length. lia. }
  assert (B : forall digits : jstring,
             (List.length digits
              <= List.length
                   (flat_map
                      (fun digit =>
                         if (digit =? 48)%N then lit "|" else lit "::")
                      digits))%nat).
  { induction digits as [| d ds IHd]; simpl; [lia |].
    rewrite length_app. destruct (d =? 48)%N; simpl; lia. }
  specialize (B (TicketGenerator.padStart8 (TicketGenerator.toString2 c))).
  lia.
Qed.

(** The barcode of a ticket shows the first five code units of the text
    at most: every code unit takes nine places or more of the forty.  So
    the barcode of a text is that of its first five code units, and it
    fills the forty places as soon as the text has five. *)
Theorem generateBarcode_first_five (text : jstring) :
  generateBarcode text = generateBarcode (firstn 5 text)
  /\ (List.length (generateBarcode text) <= 40)%nat
  /\ ((5 <= List.length text)%nat ->
      List.length (generateBarcode text) = 40%nat).
Proof.
  unfold generateBarcode.
  pose proof (barcode_block_length (firstn 5 text)) as L5.
  pose proof (barcode_block_length text) as L.
  split; [| split].
  - destruct (le_lt_dec 5 (List.length text)) as [H | H].
    + rewrite <- (firstn_skipn 5 text) at 1.
      rewrite flat_map_app, firstn_app.
      rewrite length_firstn in L5.
      replace (40 - _)%nat with 0%nat by lia.
      simpl. now rewrite app_nil_r.
    + now rewrite (firstn_all2 text) by lia.
  - rewrite length_firstn. lia.
  - intros H. rewrite length_firstn. lia.
Qed.

Lemma skipn_after_tl {A} (n : nat) (l : list A) :
  skipn n (tl l) = skipn (S n) l.
Proof. destruct l; simpl; [apply skipn_nil | reflexivity]. Qed.

Lemma generateMultiplePDFs_run (tickets : list TicketData) (b : Browser) :
  encodings b = [] ->
  exists evs,
    generateMultiplePDFs tickets b
    = ({| canvases := skipn (List.length tickets) (canvases b);
          encodings := [];
          events := events b ++ evs |}, TicketGenerator.Fulfilled tt)
    /\ downloads evs
       = List.map (fun t => (fileName t, t)) (printed tickets (canvases b)).
Proof.
  revert b. induction tickets as [| t ts IH]; intros [cs enc evs0]; simpl;
    intros ->.
  - exists []. now rewrite app_nil_r.
  - unfold await at 1, generatePDF. simpl.
    set (canvas := match cs with
                   | c :: _ => c
                   | [] => {| TicketGenerator.context2d := true;
                              TicketGenerator.encodes := true |}
                   end).
    destruct (TicketGenerator.context2d canvas) eqn:X; simpl.
    + unfold await at 1, sleep. simpl. unfold callback. simpl.
      destruct (TicketGenerator.encodes canvas) eqn:Y; simpl.
      * destruct (IH {| canvases := tl cs; encodings := [];
                        events := evs0 ++ [Download (fileName t) t; Delay 300] |}
                    eq_refl) as (evs & R & D).
        simpl in R. rewrite R.
        exists ([Download (fileName t) t; Delay 300] ++ evs).
        rewrite <- app_assoc, skipn_after_tl. split; [reflexivity |].
        unfold downloads in *. simpl. now rewrite D.
      * destruct (IH {| canvases := tl cs; encodings := [];
                        events := evs0 ++ [Delay 300] |}
                    eq_refl) as (evs & R & D).
        simpl in R. rewrite R.
        exists ([Delay 300] ++ evs).
        rewrite <- app_assoc, skipn_after_tl. split; [reflexivity |].
        unfold downloads in *. simpl. now rewrite D.
    + unfold await at 1, sleep. simpl.
      destruct (IH {| canvases := tl cs; encodings := [];
                      events := evs0 ++ [Delay 300] |}
                  eq_refl) as (evs & R & D).
      simpl in R. rewrite R.
      exists ([Delay 300] ++ evs).
      rewrite <- app_assoc, skipn_after_tl. split; [reflexivity |].
      unfold downloads in *. simpl. now rewrite D.
Qed.

(** Unlike the ticket generator of the second wizard, [generateMultiplePDFs]
    always completes: a canvas without 2D context or without image costs
    its ticket only.  One canvas is taken for each ticket; the files
    downloaded are those of the tickets whose canvas yields both, in
    order, each named [cinema-ticket-<bookingId>.png]; and no encoding is
    left under way. *)
Theorem generateMultiplePDFs_completes (tickets : list TicketData)
    (b : Browser) :
  encodings b = [] ->
  let b' := fst (generateMultiplePDFs tickets b) in
  snd (generateMultiplePDFs tickets b) = TicketGenerator.Fulfilled tt
  /\ canvases b' = skipn (List.length tickets) (canvases b)
  /\ encodings b' = []
  /\ downloads (events b')
     = downloads (events b)
       ++ List.map
            (fun t => (lit "cinema-ticket-" ++ bookingId t ++ lit ".png", t))
            (printed tickets (canvases b)).
Proof.
  intros E. cbv zeta.
  destruct (generateMultiplePDFs_run tickets b E) as (evs & -> & D).
  simpl. repeat split. unfold downloads in *.
  now rewrite flat_map_app, D.
Qed.

Lemma generateMultiplePDFs_completes_witness :
  let data :=
    {| name := lit "Test User"; seats := [(lit "A", 1); (lit "A", 2)];
       ticketType := vip; bookingId := lit "RT-ABC123";
       eventName := lit "Cinema Event 2026"; price := lit "500";
       ticketCount := 2 |} in
  let b :=
    {| canvases :=
         [ {| TicketGenerator.context2d := false;
              TicketGenerator.encodes := true |};
           {| TicketGenerator.context2d := true;
              TicketGenerator.encodes := true |} ];
       encodings := [];
       events := [] |} in
  encodings b = []
  /\ snd (generateMultiplePDFs [data; data] b) = TicketGenerator.Fulfilled tt
  /\ List.map fst (downloads (events (fst (generateMultiplePDFs [data; data] b))))
     = [lit "cinema-ticket-RT-ABC123.png"].
Proof.
  cbv zeta. split; [reflexivity |].
  destruct (generateMultiplePDFs_completes
              [ {| name := lit "Test User";
                   seats := [(lit "A", 1); (lit "A", 2)];
                   ticketType := vip; bookingId := lit "RT-ABC123";
                   eventName := lit "Cinema Event 2026"; price := lit "500";
                   ticketCount := 2 |};
                {| name := lit "Test User";
                   seats := [(lit "A", 1); (lit "A", 2)];
                   ticketType := vip; bookingId := lit "RT-ABC123";
                   eventName := lit "Cinema Event 2026"; price := lit "500";
                   ticketCount := 2 |} ]
              {| canvases :=
                   [ {| TicketGenerator.context2d := false;
                        TicketGenerator.encodes := true |};
                     {| TicketGenerator.context2d := true;
                        TicketGenerator.encodes := true |} ];
                 encodings := [];
                 events := [] |} eq_refl) as (H1 & _ & _ & H4).
  split; [exact H1 |]. rewrite H4. vm_compute. reflexivity.
Defined.

End PdfFacts.
